(** * Black-Scholes pricing kernel: pricing engine, Greeks and implied volatility

    A shallow embedding of [backend/app/models/black_scholes.py],
    [backend/app/models/greeks.py], of
    [VolatilityService.calculate_implied_volatility] and
    [calculate_volatility_surface] in [backend/app/services/volatility.py],
    of the implied-volatility route of [backend/app/api/routes/options.py],
    and of [validate_option_inputs] in
    [backend/app/utils/input_validation.py].

    Modelling conventions.
    - A Python exception is a value of [exn]; a computation that may raise
      has type [result A].  [try: ... except: ...] is [try_except].
    - [option_type] is a [string]; [str.lower] is [lower] on ASCII letters.
    - There are two models of the arithmetic.  In the modules
      [BlackScholesModel], [Greeks] and [VolatilityService] a Python [float]
      is a real number of [R]: rounding, overflow, underflow, infinities and
      NaN are absent, except for the one place where the source itself
      produces [float('inf')] (the objective of the root search); there
      [norm.pdf] and [norm.cdf] are the density and the distribution function
      of the standard normal law.  This model carries the properties decided
      by control flow.  In the module [Binary64] a [float] is an IEEE 754
      binary64 number with the arithmetic of the machine, [math.log],
      [math.exp], [**] and [norm.cdf] are parameters, and the exceptions that
      overflow and underflow cause are present.  This model carries the
      properties that depend on them.
    - [scipy.optimize.brentq] is a parameter of the solver. *)

From Stdlib Require Import Reals Lra Lia String Ascii List ZArith Bool.
From Stdlib Require PrimFloat FloatOps FloatAxioms SpecFloat.
Import ListNotations.

Open Scope R_scope.

(** ** Exceptions *)

Inductive exn : Type :=
| ValueError (msg : string)
| ZeroDivisionError
| OverflowError (msg : string)
| RuntimeError (msg : string).

Inductive result (A : Type) : Type :=
| Ok (a : A)
| Raise (e : exn).

Arguments Ok {A} a.
Arguments Raise {A} e.

Definition bind {A B : Type} (m : result A) (k : A -> result B) : result B :=
  match m with
  | Ok a => k a
  | Raise e => Raise e
  end.

Notation "x <- m ;; k" := (bind m (fun x => k))
  (at level 61, m at next level, right associativity).

(** [try: body  except: handler] with a bare [except]. *)
Definition try_except {A : Type} (body handler : result A) : result A :=
  match body with
  | Ok a => Ok a
  | Raise _ => handler
  end.

Definition raises {A : Type} (m : result A) : Prop :=
  exists e, m = Raise e.

(** ** Float operations that can raise *)

Definition math_domain_error : exn := ValueError "math domain error".

(** [a / b] on floats. *)
Definition py_div (a b : R) : result R :=
  if Req_dec_T b 0 then Raise ZeroDivisionError else Ok (a / b).

(** [math.log(x)]. *)
Definition math_log (x : R) : result R :=
  if Rle_dec x 0 then Raise math_domain_error else Ok (ln x).

(** [math.sqrt(x)]. *)
Definition math_sqrt (x : R) : result R :=
  if Rlt_dec x 0 then Raise math_domain_error else Ok (sqrt x).

(** ** The standard normal law *)

Module Normal.

(** [norm.pdf]. *)
Definition pdf (x : R) : R := exp (- (x * x) / 2) / sqrt (2 * PI).

(** Coefficients of the Maclaurin series of the integral of [exp (-t)]
    in the variable [y = x^2 / 2]:
    [cdf x = 1/2 + x / sqrt (2 PI) * sum_n cdf_n n * y^n]. *)
Definition cdf_n (n : nat) : R := (-1) ^ n / (INR (fact n) * INR (2 * n + 1)).

(** Absolute values of the terms of the series at [y]. *)
Definition cdf_term (y : R) (n : nat) : R :=
  y ^ n / (INR (fact n) * INR (2 * n + 1)).

Lemma cdf_n_den_pos (n : nat) : 0 < INR (fact n) * INR (2 * n + 1).
Proof.
  apply Rmult_lt_0_compat.
  - apply INR_fact_lt_0.
  - apply lt_0_INR; lia.
Qed.

Lemma cdf_n_no_R0 (n : nat) : cdf_n n <> 0.
Proof.
  unfold cdf_n, Rdiv. apply Rmult_integral_contrapositive_currified.
  - apply pow_nonzero; lra.
  - apply Rinv_neq_0_compat. pose proof (cdf_n_den_pos n); lra.
Qed.

Lemma cdf_n_abs (n : nat) : Rabs (cdf_n n) = / (INR (fact n) * INR (2 * n + 1)).
Proof.
  unfold cdf_n, Rdiv. rewrite Rabs_mult, pow_1_abs, Rmult_1_l.
  apply Rabs_pos_eq. left. apply Rinv_0_lt_compat, cdf_n_den_pos.
Qed.

Lemma cdf_n_ratio (n : nat) :
  Rabs (cdf_n (S n) / cdf_n n) <= / INR (S n).
Proof.
  unfold Rdiv at 1. rewrite Rabs_mult, Rabs_inv, !cdf_n_abs, Rinv_inv.
  pose proof (cdf_n_den_pos n) as Hn.
  pose proof (cdf_n_den_pos (S n)) as HSn.
  assert (Hs : 0 < INR (S n)) by (apply lt_0_INR; lia).
  apply Rmult_le_reg_r with (INR (fact (S n)) * INR (2 * S n + 1)); [exact HSn|].
  rewrite Rmult_comm, <- Rmult_assoc, Rinv_r, Rmult_1_l by lra.
  rewrite fact_simpl, mult_INR.
  replace (/ INR (S n) * (INR (S n) * INR (fact n) * INR (2 * S n + 1)))
    with (INR (fact n) * INR (2 * S n + 1)) by (field; lra).
  apply Rmult_le_compat_l.
  - left; apply INR_fact_lt_0.
  - apply le_INR; lia.
Qed.

Lemma inv_succ_small (eps : R) :
  0 < eps -> exists N : nat, forall n : nat, (n >= N)%nat -> / INR (S n) < eps.
Proof.
  intros Heps.
  destruct (archimed (/ eps)) as [Hup _].
  assert (Hinv : 0 < / eps) by (apply Rinv_0_lt_compat; exact Heps).
  assert (Hz : (0 < up (/ eps))%Z) by (apply lt_IZR; simpl; lra).
  exists (Z.to_nat (up (/ eps))).
  intros n Hn.
  assert (Hs : / eps < INR (S n)).
  { apply Rlt_le_trans with (IZR (up (/ eps))); [exact Hup|].
    rewrite INR_IZR_INZ. apply IZR_le. lia. }
  rewrite <- (Rinv_inv eps).
  apply Rinv_lt_contravar; [|exact Hs].
  apply Rmult_lt_0_compat; lra.
Qed.

Lemma Alembert_cdf : Un_cv (fun n : nat => Rabs (cdf_n (S n) / cdf_n n)) 0.
Proof.
  intros eps Heps.
  destruct (inv_succ_small eps Heps) as [N HN].
  exists N. intros n Hn. unfold Rdist. rewrite Rminus_0_r, Rabs_Rabsolu.
  apply Rle_lt_trans with (/ INR (S n)); [apply cdf_n_ratio | apply HN; exact Hn].
Qed.

Definition cdf_in (y l : R) : Prop :=
  infinite_sum (fun i : nat => cdf_n i * y ^ i) l.

Lemma exist_cdf_series (y : R) : { l : R | cdf_in y l }.
Proof.
  generalize (Alembert_C3 cdf_n y cdf_n_no_R0 Alembert_cdf).
  unfold Pser, cdf_in; trivial.
Defined.

Definition cdf_series (y : R) : R := proj1_sig (exist_cdf_series y).

(** [norm.cdf]. *)
Definition cdf (x : R) : R :=
  1 / 2 + x / sqrt (2 * PI) * cdf_series (x * x / 2).

End Normal.

(** ** Comparisons and builtins on floats *)

Definition Rleb (a b : R) : bool := if Rle_dec a b then true else false.
Definition Rltb (a b : R) : bool := if Rlt_dec a b then true else false.

(** [max(a, b)] and [min(a, b)]: the first argument wins a tie. *)
Definition py_max (a b : R) : R := if Rltb a b then b else a.
Definition py_min (a b : R) : R := if Rltb b a then b else a.

(** ** Strings: [str.lower] on ASCII *)

Definition lower_ascii (c : ascii) : ascii :=
  let n := nat_of_ascii c in
  if ((65 <=? n)%nat && (n <=? 90)%nat)%bool then ascii_of_nat (n + 32) else c.

Fixpoint lower (s : string) : string :=
  match s with
  | EmptyString => EmptyString
  | String c s' => String (lower_ascii c) (lower s')
  end.

(** ** black_scholes.py *)

Module BlackScholesModel.

Record t : Type := mk { S : R; K : R; T : R; r : R; sigma : R }.

Definition _d1 (self : t) : result R :=
  if Rleb (T self) 0 then Ok 0
  else
    q <- py_div (S self) (K self) ;;
    l <- math_log q ;;
    let num := l + (r self + 0.5 * sigma self ^ 2) * T self in
    sq <- math_sqrt (T self) ;;
    py_div num (sigma self * sq).

Definition _d2 (self : t) : result R :=
  if Rleb (T self) 0 then Ok 0
  else
    d1 <- _d1 self ;;
    sq <- math_sqrt (T self) ;;
    Ok (d1 - sigma self * sq).

Definition call_price (self : t) : result R :=
  if Rleb (T self) 0 then Ok (py_max 0 (S self - K self))
  else
    d1 <- _d1 self ;;
    d2 <- _d2 self ;;
    Ok (S self * Normal.cdf d1
        - K self * exp (- r self * T self) * Normal.cdf d2).

Definition put_price (self : t) : result R :=
  if Rleb (T self) 0 then Ok (py_max 0 (K self - S self))
  else
    d1 <- _d1 self ;;
    d2 <- _d2 self ;;
    Ok (K self * exp (- r self * T self) * Normal.cdf (- d2)
        - S self * Normal.cdf (- d1)).

Definition invalid_option_type : exn :=
  ValueError "option_type must be 'call' or 'put'".

Definition price (self : t) (option_type : string) : result R :=
  if String.eqb (lower option_type) "call" then call_price self
  else if String.eqb (lower option_type) "put" then put_price self
  else Raise invalid_option_type.

Definition get_d1_d2 (self : t) : result (R * R) :=
  d1 <- _d1 self ;;
  d2 <- _d2 self ;;
  Ok (d1, d2).

End BlackScholesModel.

(** ** greeks.py *)

Module Greeks.

Record t : Type :=
  mk { S : R; K : R; T : R; r : R; sigma : R; option_type : string }.

Definition __init__ (S K T r sigma : R) (option_type : string) : t :=
  mk S K T r sigma (lower option_type).

Definition _d1 (self : t) : result R :=
  if Rleb (T self) 0 then Ok 0
  else
    q <- py_div (S self) (K self) ;;
    l <- math_log q ;;
    let num := l + (r self + 0.5 * sigma self ^ 2) * T self in
    sq <- math_sqrt (T self) ;;
    py_div num (sigma self * sq).

Definition _d2 (self : t) : result R :=
  if Rleb (T self) 0 then Ok 0
  else
    d1 <- _d1 self ;;
    sq <- math_sqrt (T self) ;;
    Ok (d1 - sigma self * sq).

Definition is_call (self : t) : bool := String.eqb (option_type self) "call".

Definition delta (self : t) : result R :=
  if Rleb (T self) 0 then
    if is_call self
    then Ok (if Rltb (K self) (S self) then 1 else 0)
    else Ok (if Rltb (S self) (K self) then -1 else 0)
  else
    d1 <- _d1 self ;;
    if is_call self then Ok (Normal.cdf d1) else Ok (Normal.cdf d1 - 1).

Definition gamma (self : t) : result R :=
  if Rleb (T self) 0 then Ok 0
  else
    d1 <- _d1 self ;;
    sq <- math_sqrt (T self) ;;
    py_div (Normal.pdf d1) (S self * sigma self * sq).

Definition theta (self : t) : result R :=
  if Rleb (T self) 0 then Ok 0
  else
    d1 <- _d1 self ;;
    d2 <- _d2 self ;;
    sq <- math_sqrt (T self) ;;
    term1 <- py_div (- (S self * Normal.pdf d1 * sigma self)) (2 * sq) ;;
    let theta_annual :=
      if is_call self then
        term1 - r self * K self * exp (- r self * T self) * Normal.cdf d2
      else
        term1 + r self * K self * exp (- r self * T self) * Normal.cdf (- d2)
    in
    Ok (theta_annual / 365).

Definition vega (self : t) : result R :=
  if Rleb (T self) 0 then Ok 0
  else
    d1 <- _d1 self ;;
    sq <- math_sqrt (T self) ;;
    let vega_decimal := S self * Normal.pdf d1 * sq in
    Ok (vega_decimal / 100).

Definition rho (self : t) : result R :=
  if Rleb (T self) 0 then Ok 0
  else
    d2 <- _d2 self ;;
    let rho_decimal :=
      if is_call self then
        K self * T self * exp (- r self * T self) * Normal.cdf d2
      else
        - K self * T self * exp (- r self * T self) * Normal.cdf (- d2)
    in
    Ok (rho_decimal / 100).

(** The returned [dict], keys in insertion order. *)
Definition all_greeks (self : t) : result (list (string * R)) :=
  d <- delta self ;;
  g <- gamma self ;;
  th <- theta self ;;
  v <- vega self ;;
  rh <- rho self ;;
  Ok [("delta"%string, d); ("gamma"%string, g); ("theta"%string, th);
      ("vega"%string, v); ("rho"%string, rh)].

End Greeks.

(** ** volatility.py: [VolatilityService.calculate_implied_volatility] *)

Module VolatilityService.

(** The value of the objective: a float or [float('inf')]. *)
Inductive xfloat : Type :=
| Finite (x : R)
| PlusInf.

(** Keyword arguments given to [brentq]. *)
Record brentq_kwargs : Type := mk_kwargs { maxiter : Z; xtol : R }.

(** The type of [scipy.optimize.brentq(f, a, b, maxiter=.., xtol=..)]. *)
Definition brentq_t : Type :=
  (R -> xfloat) -> R -> R -> brentq_kwargs -> result R.

Definition default_initial_guess : R := 0.3.
Definition default_max_iterations : Z := 100.
Definition default_tolerance : R := 1e-6.

Section Solver.

Variable brentq : brentq_t.

Variables (market_price S K T r : R) (option_type : string).

Definition intrinsic_value : R :=
  if String.eqb option_type "call" then py_max 0 (S - K) else py_max 0 (K - S).

(** The checks made before any search; [true] when the search is skipped. *)
Definition rejected : bool :=
  (Rleb T 0 || Rleb market_price 0)%bool || Rltb market_price intrinsic_value.

Definition objective (sigma : R) : xfloat :=
  match BlackScholesModel.price (BlackScholesModel.mk S K T r sigma) option_type with
  | Ok model_price => Finite (model_price - market_price)
  | Raise _ => PlusInf
  end.

Variables (initial_guess : R) (max_iterations : Z) (tolerance : R).

(** One pass through the body of the [for] loop. *)
Inductive step_outcome : Type :=
| Return (sigma : R)
| Break
| Continue (sigma : R).

Definition newton_step (sigma : R) : result step_outcome :=
  p <- BlackScholesModel.price (BlackScholesModel.mk S K T r sigma) option_type ;;
  let price_diff := p - market_price in
  if Rltb (Rabs price_diff) tolerance then Ok (Return sigma)
  else
    v <- Greeks.vega (Greeks.__init__ S K T r sigma option_type) ;;
    let vega := v * 100 in
    if Rltb vega 1e-10 then Ok Break
    else
      q <- py_div price_diff vega ;;
      let sigma := sigma - q in
      Ok (Continue (py_max 0.001 (py_min sigma 5.0))).

(** [for _ in range(n): ...] followed by [return None]. *)
Fixpoint newton_loop (n : nat) (sigma : R) : result (option R) :=
  match n with
  | O => Ok None
  | Datatypes.S n' =>
      o <- newton_step sigma ;;
      match o with
      | Return s => Ok (Some s)
      | Break => Ok None
      | Continue s => newton_loop n' s
      end
  end.

Definition newton_raphson : result (option R) :=
  try_except (newton_loop (Z.to_nat max_iterations) initial_guess) (Ok None).

Definition brent_search : result (option R) :=
  implied_vol <- brentq objective 0.001 5.0
                   (mk_kwargs max_iterations tolerance) ;;
  Ok (Some implied_vol).

Definition root_search : result (option R) :=
  try_except brent_search newton_raphson.

Definition calculate_implied_volatility : result (option R) :=
  if (Rleb T 0 || Rleb market_price 0)%bool then Ok None
  else if Rltb market_price intrinsic_value then Ok None
  else root_search.

End Solver.

(** *** [calculate_volatility_surface] *)

(** A row of the option chain: the cells read by the function, [None] for a
    missing column or a NaN cell (what [pd.notna] rejects). *)
Record chain_row : Type := mk_chain_row {
  strike : option R;
  lastPrice : option R
}.

(** A row of the returned frame. *)
Record surface_row : Type := mk_surface_row {
  row_strike : R;
  row_implied_volatility : R;
  row_time_to_expiration : R;
  row_market_price : R
}.

Definition surface_T : R := 30 / 365.

Section Surface.

Variable brentq : brentq_t.

Variables (S r : R) (option_type : string).

(** The body of the [try] for one row: the record appended, if any. *)
Definition surface_row_of (row : chain_row) : result (option surface_row) :=
  let T := surface_T in
  match strike row, lastPrice row with
  | Some strike, Some market_price =>
      if Rltb 0 market_price then
        iv <- calculate_implied_volatility brentq market_price S strike T r
                option_type default_initial_guess default_max_iterations
                default_tolerance ;;
        match iv with
        | Some iv => Ok (Some (mk_surface_row strike iv T market_price))
        | None => Ok None
        end
      else Ok None
  | _, _ => Ok None
  end.

Fixpoint calculate_volatility_surface (option_chain : list chain_row)
  : list surface_row :=
  match option_chain with
  | [] => []
  | row :: rest =>
      match surface_row_of row with
      | Ok (Some result) => result :: calculate_volatility_surface rest
      | Ok None => calculate_volatility_surface rest
      | Raise _ => calculate_volatility_surface rest
      end
  end.

End Surface.

End VolatilityService.

(** ** api/routes/options.py and the request schemas *)

Module OptionsRoutes.

(** What a route gives back: the response model, or the [HTTPException] it
    raises. *)
Inductive http (A : Type) : Type :=
| Response (a : A)
| HTTPException (status_code : Z) (detail : string).

Arguments Response {A} a.
Arguments HTTPException {A} status_code detail.

(** What the [try] block of a route can raise: an exception of the kernel,
    or the validation error of a response model. *)
Inductive route_exn : Type :=
| Kernel (e : exn)
| ResponseValidation.

Definition lift {A : Type} (m : result A) : route_exn + A :=
  match m with
  | Ok a => inr a
  | Raise e => inl (Kernel e)
  end.

Record ImpliedVolatilityRequest : Type := mk_iv_request {
  iv_market_price : R; iv_S : R; iv_K : R; iv_T : R; iv_r : R;
  iv_option_type : string
}.

Record ImpliedVolatilityResponse : Type := mk_iv_response {
  implied_volatility : option R;
  market_price : R;
  model_price : option R;
  difference : option R
}.

(** The [Field] constraints of the request schema. *)
Definition iv_request_valid (request : ImpliedVolatilityRequest) : Prop :=
  0 < iv_market_price request /\ 0 < iv_S request /\ 0 < iv_K request /\
  0 < iv_T request /\ 0 <= iv_r request <= 1 /\
  (iv_option_type request = "call"%string \/
   iv_option_type request = "put"%string).

Section Routes.

Variable brentq : VolatilityService.brentq_t.

(** [str(e)] for the exception caught by a route. *)
Variable str_of_exception : route_exn -> string.

Definition calculate_implied_volatility (request : ImpliedVolatilityRequest)
  : http ImpliedVolatilityResponse :=
  let body : route_exn + ImpliedVolatilityResponse :=
    match lift (VolatilityService.calculate_implied_volatility brentq
                  (iv_market_price request) (iv_S request) (iv_K request)
                  (iv_T request) (iv_r request) (iv_option_type request)
                  VolatilityService.default_initial_guess
                  VolatilityService.default_max_iterations
                  VolatilityService.default_tolerance) with
    | inl e => inl e
    | inr None =>
        inr (mk_iv_response None (iv_market_price request) None None)
    | inr (Some iv) =>
        let bs_model :=
          BlackScholesModel.mk (iv_S request) (iv_K request) (iv_T request)
            (iv_r request) iv in
        match lift (BlackScholesModel.price bs_model (iv_option_type request)) with
        | inl e => inl e
        | inr model_price =>
            inr (mk_iv_response (Some iv) (iv_market_price request)
                   (Some model_price)
                   (Some (Rabs (model_price - iv_market_price request))))
        end
    end in
  match body with
  | inr response => Response response
  | inl e =>
      HTTPException 400
        ("Error calculating implied volatility: " ++ str_of_exception e)%string
  end.

End Routes.

End OptionsRoutes.

(** ** black_scholes.py over binary64 *)

Module Binary64.

Import PrimFloat.
Local Open Scope float_scope.

Definition math_range_error : exn := OverflowError "math range error".

Definition pow_range_error : exn :=
  OverflowError "(34, 'Numerical result out of range')".

(** [a / b] on floats: only a zero divisor raises. *)
Definition float_div (a b : float) : result float :=
  if b =? 0 then Raise ZeroDivisionError else Ok (a / b).

(** [math.sqrt(x)]. *)
Definition math_sqrt (x : float) : result float :=
  if x <? 0 then Raise math_domain_error else Ok (sqrt x).

(** [max(0, x)]: the second argument is returned only if it is greater. *)
Definition py_max0 (x : float) : float := if 0 <? x then x else 0.

Record t : Type := mk { S : float; K : float; T : float; r : float; sigma : float }.

Section Libm.

(** The functions of the C library and of scipy, on the values where Python
    calls them. *)
Variables (libm_log libm_exp : float -> float).
Variable libm_pow : float -> float -> float.
Variable norm_cdf : float -> float.

(** [math.log(x)]: a domain error unless [x > 0]. *)
Definition math_log (x : float) : result float :=
  if x <=? 0 then Raise math_domain_error else Ok (libm_log x).

(** [math.exp(x)]: a range error when the result overflows. *)
Definition math_exp (x : float) : result float :=
  let y := libm_exp x in
  if (is_infinity y && is_finite x)%bool then Raise math_range_error else Ok y.

(** [x ** y] on floats: [OverflowError] when the result overflows. *)
Definition float_pow (x y : float) : result float :=
  let z := libm_pow x y in
  if (is_infinity z && is_finite x)%bool then Raise pow_range_error else Ok z.

Definition _d1 (self : t) : result float :=
  if T self <=? 0 then Ok 0
  else
    q <- float_div (S self) (K self) ;;
    l <- math_log q ;;
    p <- float_pow (sigma self) 2 ;;
    let num := l + (r self + 0.5 * p) * T self in
    sq <- math_sqrt (T self) ;;
    float_div num (sigma self * sq).

Definition _d2 (self : t) : result float :=
  if T self <=? 0 then Ok 0
  else
    d1 <- _d1 self ;;
    sq <- math_sqrt (T self) ;;
    Ok (d1 - sigma self * sq).

Definition call_price (self : t) : result float :=
  if T self <=? 0 then Ok (py_max0 (S self - K self))
  else
    d1 <- _d1 self ;;
    d2 <- _d2 self ;;
    let first := S self * norm_cdf d1 in
    e <- math_exp (- r self * T self) ;;
    Ok (first - K self * e * norm_cdf d2).

Definition put_price (self : t) : result float :=
  if T self <=? 0 then Ok (py_max0 (K self - S self))
  else
    d1 <- _d1 self ;;
    d2 <- _d2 self ;;
    e <- math_exp (- r self * T self) ;;
    Ok (K self * e * norm_cdf (- d2) - S self * norm_cdf (- d1)).

Definition price (self : t) (option_type : string) : result float :=
  if String.eqb (lower option_type) "call" then call_price self
  else if String.eqb (lower option_type) "put" then put_price self
  else Raise BlackScholesModel.invalid_option_type.

Definition get_d1_d2 (self : t) : result (float * float) :=
  d1 <- _d1 self ;;
  d2 <- _d2 self ;;
  Ok (d1, d2).

End Libm.

(** Stand-ins for the library functions, used to instantiate statements. *)
Definition stub_log : float -> float := fun _ => 0.
Definition stub_exp : float -> float := fun _ => 1.
Definition stub_pow : float -> float -> float := fun x _ => x * x.
Definition stub_cdf : float -> float := fun _ => 0.5.

(** input_validation.py: [validate_option_inputs], the valid numeric
    ranges.  Every test is a float comparison. *)
Definition validate_option_inputs (S K T r sigma : float) : bool * string :=
  if S <=? 0 then (false, "Stock price must be positive"%string)
  else if K <=? 0 then (false, "Strike price must be positive"%string)
  else if T <? 0 then (false, "Time to expiration cannot be negative"%string)
  else if 10 <? T
       then (false, "Time to expiration too large (max 10 years)"%string)
  else if ((r <? 0) || (1 <? r))%bool
       then (false,
             "Risk-free rate must be between 0 and 1 (0% to 100%)"%string)
  else if sigma <=? 0 then (false, "Volatility must be positive"%string)
  else if 5 <? sigma then (false, "Volatility too high (max 500%)"%string)
  else (true, EmptyString).

End Binary64.

(** * Definitions used to state the properties *)

Module VS := VolatilityService.
Module OR := OptionsRoutes.

(** The closed forms of d1 and d2 for [T > 0]. *)
Definition d1_formula (S K T r sigma : R) : R :=
  (ln (S / K) + (r + 0.5 * sigma ^ 2) * T) / (sigma * sqrt T).

Definition d2_formula (S K T r sigma : R) : R :=
  d1_formula S K T r sigma - sigma * sqrt T.

(** The exceptions that arithmetic can raise. *)
Definition numeric_exn (e : exn) : Prop :=
  e = ZeroDivisionError \/ e = math_domain_error.

Definition only_numeric {A : Type} (m : result A) : Prop :=
  forall e, m = Raise e -> numeric_exn e.

(** The exceptions that binary64 arithmetic can raise. *)
Definition arithmetic_exn (e : exn) : Prop :=
  e = ZeroDivisionError \/ e = math_domain_error \/
  e = Binary64.math_range_error \/ e = Binary64.pow_range_error.

Definition raises_only {A : Type} (P : exn -> Prop) (m : result A) : Prop :=
  forall e, m = Raise e -> P e.

(** The dictionary of put Greeks for [T > 0], and the one for [T <= 0]. *)
Definition put_greeks_formula (S K T r sigma : R) : list (string * R) :=
  let d1 := d1_formula S K T r sigma in
  let d2 := d2_formula S K T r sigma in
  [("delta"%string, Normal.cdf d1 - 1);
   ("gamma"%string, Normal.pdf d1 / (S * sigma * sqrt T));
   ("theta"%string,
     (- (S * Normal.pdf d1 * sigma) / (2 * sqrt T)
      + r * K * exp (- r * T) * Normal.cdf (- d2)) / 365);
   ("vega"%string, S * Normal.pdf d1 * sqrt T / 100);
   ("rho"%string, - K * T * exp (- r * T) * Normal.cdf (- d2) / 100)].

Definition put_greeks_expired (S K : R) : list (string * R) :=
  [("delta"%string, if Rlt_dec S K then -1 else 0);
   ("gamma"%string, 0); ("theta"%string, 0);
   ("vega"%string, 0); ("rho"%string, 0)].

(** ** The Newton-Raphson iteration as the specification words it *)

Section NewtonSpec.

Variables (market_price S K T r : R) (option_type : string) (tolerance : R).

(** price(sigma) for [T > 0]. *)
Definition model_price (sigma : R) : R :=
  let d1 := d1_formula S K T r sigma in
  let d2 := d2_formula S K T r sigma in
  if String.eqb (lower option_type) "call"
  then S * Normal.cdf d1 - K * exp (- (r * T)) * Normal.cdf d2
  else K * exp (- (r * T)) * Normal.cdf (- d2) - S * Normal.cdf (- d1).

(** vega(sigma) per unit of volatility. *)
Definition vega_decimal (sigma : R) : R :=
  S * Normal.pdf (d1_formula S K T r sigma) * sqrt T.

Definition clamp (sigma : R) : R := Rmax 0.001 (Rmin sigma 5.0).

(** sigma_{n+1} = sigma_n - (price(sigma_n) - market_price) / vega(sigma_n),
    clamped into [0.001, 5.0]. *)
Definition newton_next (sigma : R) : R :=
  clamp (sigma - (model_price sigma - market_price) / vega_decimal sigma).

Fixpoint newton_iterate (sigma0 : R) (n : nat) : R :=
  match n with
  | O => sigma0
  | Datatypes.S n' => newton_next (newton_iterate sigma0 n')
  end.

Definition converged (sigma : R) : Prop :=
  Rabs (model_price sigma - market_price) < tolerance.

Definition vega_underflow (sigma : R) : Prop :=
  vega_decimal sigma < 1e-10.

(** Neither exit of the loop body is taken at [sigma]. *)
Definition keeps_going (sigma : R) : Prop :=
  ~ converged sigma /\ ~ vega_underflow sigma.

End NewtonSpec.

(** One pass through the body of the loop that takes neither exit: the
    price [p] returned at [sigma] is not within [tolerance], the vega [v]
    returned at [sigma] gives a divisor [v * 100] that is not below 1e-10,
    and [sigma'] is the clamped Newton update. *)
Definition newton_pass (market_price S K T r : R) (option_type : string)
    (tolerance sigma p v sigma' : R) : Prop :=
  BlackScholesModel.price (BlackScholesModel.mk S K T r sigma) option_type
  = Ok p /\
  ~ Rabs (p - market_price) < tolerance /\
  Greeks.vega (Greeks.__init__ S K T r sigma option_type) = Ok v /\
  ~ v * 100 < 1e-10 /\
  sigma' = Rmax 0.001 (Rmin (sigma - (p - market_price) / (v * 100)) 5.0).

(** ** Root-finders *)

(** Two stand-ins for [brentq] used to instantiate the statements: one that
    always reports a bracket without sign change, one that returns the
    lower end of the bracket. *)
Definition brentq_sign_error : VS.brentq_t :=
  fun _ _ _ _ => Raise (ValueError "f(a) and f(b) must have different signs").

Definition brentq_lower_end : VS.brentq_t :=
  fun _ a _ _ => Ok a.

(** The guarantee a bracketing root-finder gives through [xtol]: the
    returned point lies in the bracket, within [xtol] of every exact root of
    [f] in the bracket. *)
Definition xtol_guarantee (f : R -> VS.xfloat) (a b xtol x0 : R) : Prop :=
  a <= x0 <= b /\
  forall x : R, a <= x <= b -> f x = VS.Finite 0 -> Rabs (x - x0) <= xtol.

(** The primary search judged on price: whatever it returns matches the
    market price to within [tolerance]. *)
Definition primary_search_converges_on_price : Prop :=
  forall (brentq : VS.brentq_t) (market_price S K T r : R) (option_type : string)
         (max_iterations : Z) (tolerance x0 : R),
    VS.rejected market_price S K T option_type = false ->
    brentq (VS.objective market_price S K T r option_type) 0.001 5.0
      (VS.mk_kwargs max_iterations tolerance) = Ok x0 ->
    xtol_guarantee (VS.objective market_price S K T r option_type)
      0.001 5.0 tolerance x0 ->
    exists d : R,
      VS.objective market_price S K T r option_type x0 = VS.Finite d /\
      Rabs d < tolerance.

(** * Lemmas *)

(** ** Builtins *)

Lemma Rleb_true (a b : R) : a <= b -> Rleb a b = true.
Proof. intros H. unfold Rleb. destruct (Rle_dec a b); [reflexivity | contradiction]. Qed.

Lemma Rleb_false (a b : R) : b < a -> Rleb a b = false.
Proof. intros H. unfold Rleb. destruct (Rle_dec a b); [lra | reflexivity]. Qed.

Lemma Rltb_true (a b : R) : a < b -> Rltb a b = true.
Proof. intros H. unfold Rltb. destruct (Rlt_dec a b); [reflexivity | contradiction]. Qed.

Lemma Rltb_false (a b : R) : b <= a -> Rltb a b = false.
Proof. intros H. unfold Rltb. destruct (Rlt_dec a b); [lra | reflexivity]. Qed.

Lemma py_max_Rmax (a b : R) : py_max a b = Rmax a b.
Proof.
  unfold py_max, Rltb, Rmax.
  destruct (Rlt_dec a b), (Rle_dec a b); try reflexivity; lra.
Qed.

Lemma py_min_Rmin (a b : R) : py_min a b = Rmin a b.
Proof.
  unfold py_min, Rltb, Rmin.
  destruct (Rlt_dec b a), (Rle_dec a b); try reflexivity; lra.
Qed.

Lemma py_div_ok (a b : R) : b <> 0 -> py_div a b = Ok (a / b).
Proof. intros H. unfold py_div. destruct (Req_dec_T b 0); [contradiction | reflexivity]. Qed.

Lemma math_log_ok (x : R) : 0 < x -> math_log x = Ok (ln x).
Proof. intros H. unfold math_log. destruct (Rle_dec x 0); [lra | reflexivity]. Qed.

Lemma math_sqrt_ok (x : R) : 0 <= x -> math_sqrt x = Ok (sqrt x).
Proof. intros H. unfold math_sqrt. destruct (Rlt_dec x 0); [lra | reflexivity]. Qed.

Lemma sqrt_2PI_pos : 0 < sqrt (2 * PI).
Proof. apply sqrt_lt_R0. pose proof PI_RGT_0. lra. Qed.

(** Symmetry of the normal distribution function. *)
Lemma cdf_opp (x : R) : Normal.cdf (- x) = 1 - Normal.cdf x.
Proof.
  unfold Normal.cdf.
  replace (- x * - x / 2) with (x * x / 2) by lra.
  pose proof sqrt_2PI_pos. field. lra.
Qed.

(** ** The pricing engine on valid inputs *)

Section ValidInputs.

Variables S K T r sigma : R.
Hypothesis HS : 0 < S.
Hypothesis HK : 0 < K.
Hypothesis HT : 0 < T.
Hypothesis Hsigma : sigma <> 0.

Lemma ratio_pos : 0 < S / K.
Proof. apply Rdiv_lt_0_compat; assumption. Qed.

Lemma vol_sqrt_nonzero : sigma * sqrt T <> 0.
Proof.
  pose proof (sqrt_lt_R0 T HT).
  apply Rmult_integral_contrapositive_currified; lra.
Qed.

Lemma bs_d1_valid :
  BlackScholesModel._d1 (BlackScholesModel.mk S K T r sigma)
  = Ok (d1_formula S K T r sigma).
Proof.
  unfold BlackScholesModel._d1; simpl.
  rewrite Rleb_false by exact HT.
  rewrite py_div_ok by lra. simpl.
  rewrite math_log_ok by exact ratio_pos. simpl.
  rewrite math_sqrt_ok by lra. simpl.
  rewrite py_div_ok by exact vol_sqrt_nonzero. reflexivity.
Qed.

Lemma bs_d2_valid :
  BlackScholesModel._d2 (BlackScholesModel.mk S K T r sigma)
  = Ok (d2_formula S K T r sigma).
Proof.
  unfold BlackScholesModel._d2.
  rewrite bs_d1_valid; simpl.
  rewrite Rleb_false by exact HT.
  rewrite math_sqrt_ok by lra. reflexivity.
Qed.

Lemma greeks_d1_valid (ot : string) :
  Greeks._d1 (Greeks.mk S K T r sigma ot) = Ok (d1_formula S K T r sigma).
Proof.
  unfold Greeks._d1; simpl.
  rewrite Rleb_false by exact HT.
  rewrite py_div_ok by lra. simpl.
  rewrite math_log_ok by exact ratio_pos. simpl.
  rewrite math_sqrt_ok by lra. simpl.
  rewrite py_div_ok by exact vol_sqrt_nonzero. reflexivity.
Qed.

Lemma greeks_d2_valid (ot : string) :
  Greeks._d2 (Greeks.mk S K T r sigma ot) = Ok (d2_formula S K T r sigma).
Proof.
  unfold Greeks._d2.
  rewrite greeks_d1_valid; simpl.
  rewrite Rleb_false by exact HT.
  rewrite math_sqrt_ok by lra. reflexivity.
Qed.

Lemma bs_call_price_valid :
  BlackScholesModel.call_price (BlackScholesModel.mk S K T r sigma)
  = Ok (S * Normal.cdf (d1_formula S K T r sigma)
        - K * exp (- (r * T)) * Normal.cdf (d2_formula S K T r sigma)).
Proof.
  unfold BlackScholesModel.call_price.
  rewrite bs_d1_valid, bs_d2_valid; simpl.
  rewrite Rleb_false by exact HT.
  replace (- r * T) with (- (r * T)) by ring. reflexivity.
Qed.

Lemma bs_put_price_valid :
  BlackScholesModel.put_price (BlackScholesModel.mk S K T r sigma)
  = Ok (K * exp (- (r * T)) * Normal.cdf (- d2_formula S K T r sigma)
        - S * Normal.cdf (- d1_formula S K T r sigma)).
Proof.
  unfold BlackScholesModel.put_price.
  rewrite bs_d1_valid, bs_d2_valid; simpl.
  rewrite Rleb_false by exact HT.
  replace (- r * T) with (- (r * T)) by ring. reflexivity.
Qed.

End ValidInputs.

Lemma bs_call_price_expired (S K T r sigma : R) :
  T <= 0 ->
  BlackScholesModel.call_price (BlackScholesModel.mk S K T r sigma)
  = Ok (py_max 0 (S - K)).
Proof.
  intros HT. unfold BlackScholesModel.call_price; simpl.
  rewrite (Rleb_true T 0 HT). reflexivity.
Qed.

Lemma bs_put_price_expired (S K T r sigma : R) :
  T <= 0 ->
  BlackScholesModel.put_price (BlackScholesModel.mk S K T r sigma)
  = Ok (py_max 0 (K - S)).
Proof.
  intros HT. unfold BlackScholesModel.put_price; simpl.
  rewrite (Rleb_true T 0 HT). reflexivity.
Qed.

(** ** Which exceptions the numeric code can raise *)

Create HintDb numeric.

Lemma only_numeric_ok {A : Type} (a : A) : only_numeric (Ok a).
Proof. intros e H; discriminate. Qed.

Lemma only_numeric_bind {A B : Type} (m : result A) (k : A -> result B) :
  only_numeric m -> (forall a, only_numeric (k a)) -> only_numeric (bind m k).
Proof.
  intros Hm Hk e. destruct m as [a | e']; simpl.
  - apply Hk.
  - intros H. inversion H; subst. apply Hm. reflexivity.
Qed.

Lemma only_numeric_if {A : Type} (b : bool) (m1 m2 : result A) :
  only_numeric m1 -> only_numeric m2 -> only_numeric (if b then m1 else m2).
Proof. destruct b; auto. Qed.

Lemma only_numeric_py_div (a b : R) : only_numeric (py_div a b).
Proof.
  intros e. unfold py_div. destruct (Req_dec_T b 0); intros H; inversion H.
  left; reflexivity.
Qed.

Lemma only_numeric_math_log (x : R) : only_numeric (math_log x).
Proof.
  intros e. unfold math_log. destruct (Rle_dec x 0); intros H; inversion H.
  right; reflexivity.
Qed.

Lemma only_numeric_math_sqrt (x : R) : only_numeric (math_sqrt x).
Proof.
  intros e. unfold math_sqrt. destruct (Rlt_dec x 0); intros H; inversion H.
  right; reflexivity.
Qed.

#[local] Hint Resolve only_numeric_ok only_numeric_py_div only_numeric_math_log
  only_numeric_math_sqrt : numeric.

Ltac numeric :=
  repeat first
    [ apply only_numeric_if
    | apply only_numeric_bind; [| intros ?]
    | solve [auto with numeric] ].

Lemma bs_d1_numeric (bs : BlackScholesModel.t) :
  only_numeric (BlackScholesModel._d1 bs).
Proof. unfold BlackScholesModel._d1. numeric. Qed.

#[local] Hint Resolve bs_d1_numeric : numeric.

Lemma bs_d2_numeric (bs : BlackScholesModel.t) :
  only_numeric (BlackScholesModel._d2 bs).
Proof. unfold BlackScholesModel._d2. numeric. Qed.

#[local] Hint Resolve bs_d2_numeric : numeric.

Lemma call_price_numeric (bs : BlackScholesModel.t) :
  only_numeric (BlackScholesModel.call_price bs).
Proof. unfold BlackScholesModel.call_price. numeric. Qed.

Lemma put_price_numeric (bs : BlackScholesModel.t) :
  only_numeric (BlackScholesModel.put_price bs).
Proof. unfold BlackScholesModel.put_price. numeric. Qed.

Lemma invalid_option_type_not_numeric :
  ~ numeric_exn BlackScholesModel.invalid_option_type.
Proof. intros [H | H]; discriminate H. Qed.

Lemma greeks_d1_numeric (g : Greeks.t) : only_numeric (Greeks._d1 g).
Proof. unfold Greeks._d1. numeric. Qed.

#[local] Hint Resolve greeks_d1_numeric : numeric.

Lemma greeks_d2_numeric (g : Greeks.t) : only_numeric (Greeks._d2 g).
Proof. unfold Greeks._d2. numeric. Qed.

#[local] Hint Resolve greeks_d2_numeric : numeric.

Lemma delta_numeric (g : Greeks.t) : only_numeric (Greeks.delta g).
Proof. unfold Greeks.delta. numeric. Qed.

Lemma gamma_numeric (g : Greeks.t) : only_numeric (Greeks.gamma g).
Proof. unfold Greeks.gamma. numeric. Qed.

Lemma theta_numeric (g : Greeks.t) : only_numeric (Greeks.theta g).
Proof. unfold Greeks.theta. numeric. Qed.

Lemma vega_numeric (g : Greeks.t) : only_numeric (Greeks.vega g).
Proof. unfold Greeks.vega. numeric. Qed.

Lemma rho_numeric (g : Greeks.t) : only_numeric (Greeks.rho g).
Proof. unfold Greeks.rho. numeric. Qed.

#[local] Hint Resolve delta_numeric gamma_numeric theta_numeric vega_numeric
  rho_numeric : numeric.

Lemma all_greeks_numeric (g : Greeks.t) : only_numeric (Greeks.all_greeks g).
Proof. unfold Greeks.all_greeks. numeric. Qed.

(** ** The Greeks of a side that is not a call *)

Lemma is_call_init (S K T r sigma : R) (option_type : string) :
  Greeks.is_call (Greeks.__init__ S K T r sigma option_type)
  = String.eqb (lower option_type) "call".
Proof. reflexivity. Qed.

Lemma all_greeks_not_call_valid (S K T r sigma : R) (option_type : string) :
  0 < S -> 0 < K -> 0 < T -> 0 < sigma ->
  lower option_type <> "call"%string ->
  Greeks.all_greeks (Greeks.__init__ S K T r sigma option_type)
  = Ok (put_greeks_formula S K T r sigma).
Proof.
  intros HS HK HT Hsig Hot.
  assert (Hs0 : sigma <> 0) by lra.
  assert (Hsq : 0 < sqrt T) by (apply sqrt_lt_R0; exact HT).
  apply String.eqb_neq in Hot.
  unfold Greeks.all_greeks, Greeks.delta, Greeks.gamma, Greeks.theta,
    Greeks.vega, Greeks.rho, Greeks.__init__.
  rewrite greeks_d1_valid, greeks_d2_valid by assumption.
  unfold Greeks.is_call; simpl.
  rewrite Hot, (Rleb_false T 0 HT), (math_sqrt_ok T) by lra. simpl.
  rewrite !py_div_ok.
  - reflexivity.
  - lra.
  - apply Rmult_integral_contrapositive_currified; [nra | lra].
Qed.

Lemma all_greeks_not_call_expired (S K T r sigma : R) (option_type : string) :
  T <= 0 ->
  lower option_type <> "call"%string ->
  Greeks.all_greeks (Greeks.__init__ S K T r sigma option_type)
  = Ok (put_greeks_expired S K).
Proof.
  intros HT Hot. apply String.eqb_neq in Hot.
  unfold Greeks.all_greeks, Greeks.delta, Greeks.gamma, Greeks.theta,
    Greeks.vega, Greeks.rho, Greeks.__init__, Greeks.is_call; simpl.
  rewrite Hot, (Rleb_true T 0 HT). simpl.
  unfold put_greeks_expired, Rltb. destruct (Rlt_dec S K); reflexivity.
Qed.

(** ** The solver: checks and totality *)

Lemma calculate_implied_volatility_unfold
      (brentq : VS.brentq_t) (market_price S K T r : R) (option_type : string)
      (initial_guess : R) (max_iterations : Z) (tolerance : R) :
  VS.calculate_implied_volatility brentq market_price S K T r option_type
    initial_guess max_iterations tolerance
  = if VS.rejected market_price S K T option_type then Ok None
    else VS.root_search brentq market_price S K T r option_type
           initial_guess max_iterations tolerance.
Proof.
  unfold VS.calculate_implied_volatility, VS.rejected.
  destruct (Rleb T 0 || Rleb market_price 0)%bool; simpl; [reflexivity |].
  destruct (Rltb market_price (VS.intrinsic_value S K option_type)); reflexivity.
Qed.

Lemma rejected_true_iff (market_price S K T : R) (option_type : string) :
  VS.rejected market_price S K T option_type = true
  <-> T <= 0 \/ market_price <= 0
      \/ market_price < VS.intrinsic_value S K option_type.
Proof.
  unfold VS.rejected, Rleb, Rltb.
  destruct (Rle_dec T 0), (Rle_dec market_price 0),
    (Rlt_dec market_price (VS.intrinsic_value S K option_type)); simpl;
    split; intros H; try reflexivity; try discriminate; try tauto.
Qed.

Lemma newton_raphson_total (market_price S K T r : R) (option_type : string)
      (initial_guess : R) (max_iterations : Z) (tolerance : R) :
  exists v, VS.newton_raphson market_price S K T r option_type
              initial_guess max_iterations tolerance = Ok v.
Proof.
  unfold VS.newton_raphson, try_except.
  destruct (VS.newton_loop _ _ _ _ _ _ _ _ _) as [v | e]; eexists; reflexivity.
Qed.

Lemma root_search_total (brentq : VS.brentq_t) (market_price S K T r : R)
      (option_type : string) (initial_guess : R) (max_iterations : Z)
      (tolerance : R) :
  exists v, VS.root_search brentq market_price S K T r option_type
              initial_guess max_iterations tolerance = Ok v.
Proof.
  unfold VS.root_search, VS.brent_search, try_except.
  destruct (brentq _ _ _ _) as [x | e]; simpl.
  - eexists; reflexivity.
  - apply newton_raphson_total.
Qed.

(** ** The Newton-Raphson loop follows the iteration *)

Section NewtonTrace.

Variables (market_price S K T r : R) (option_type : string) (tolerance : R).

Local Abbreviation price_at := (model_price S K T r option_type).
Local Abbreviation vega_at := (vega_decimal S K T r).
Local Abbreviation next := (newton_next market_price S K T r option_type).
Local Abbreviation iterate := (newton_iterate market_price S K T r option_type).
Local Abbreviation conv := (converged market_price S K T r option_type tolerance).
Local Abbreviation underflow := (vega_underflow S K T r).
Local Abbreviation going := (keeps_going market_price S K T r option_type tolerance).

Lemma clamp_pos (sigma : R) : 0.001 <= clamp sigma.
Proof. unfold clamp. apply Rmax_l. Qed.

Lemma clamp_range (sigma : R) : 0.001 <= clamp sigma <= 5.0.
Proof.
  split; [apply clamp_pos |].
  unfold clamp. apply Rmax_lub; [lra | apply Rmin_r].
Qed.

Lemma newton_next_nonzero (sigma : R) : next sigma <> 0.
Proof.
  unfold newton_next.
  pose proof (clamp_pos (sigma - (price_at sigma - market_price) / vega_at sigma)).
  lra.
Qed.

Lemma newton_iterate_shift (sigma0 : R) (n : nat) :
  iterate sigma0 (Datatypes.S n) = iterate (next sigma0) n.
Proof.
  induction n as [| n IH]; [reflexivity |].
  simpl in *. rewrite IH. reflexivity.
Qed.

Hypothesis HS : 0 < S.
Hypothesis HK : 0 < K.
Hypothesis HT : 0 < T.
Hypothesis Hside :
  lower option_type = "call"%string \/ lower option_type = "put"%string.

Lemma price_valid (sigma : R) :
  sigma <> 0 ->
  BlackScholesModel.price (BlackScholesModel.mk S K T r sigma) option_type
  = Ok (price_at sigma).
Proof.
  intros Hs. unfold BlackScholesModel.price, price_at.
  destruct Hside as [E | E]; rewrite E; simpl.
  - apply bs_call_price_valid; assumption.
  - apply bs_put_price_valid; assumption.
Qed.

Lemma vega_valid (sigma : R) :
  sigma <> 0 ->
  Greeks.vega (Greeks.__init__ S K T r sigma option_type)
  = Ok (vega_at sigma / 100).
Proof.
  intros Hs. unfold Greeks.vega, Greeks.__init__.
  rewrite greeks_d1_valid by assumption. simpl.
  rewrite (Rleb_false T 0 HT), math_sqrt_ok by lra. reflexivity.
Qed.

(** The loop body, case by case. *)
Lemma newton_step_converged (sigma : R) :
  sigma <> 0 -> conv sigma ->
  VS.newton_step market_price S K T r option_type tolerance sigma
  = Ok (VS.Return sigma).
Proof.
  intros Hs Hc. unfold VS.newton_step.
  rewrite price_valid by exact Hs. simpl.
  rewrite Rltb_true by exact Hc. reflexivity.
Qed.

Lemma newton_step_underflow (sigma : R) :
  sigma <> 0 -> ~ conv sigma -> underflow sigma ->
  VS.newton_step market_price S K T r option_type tolerance sigma
  = Ok VS.Break.
Proof.
  intros Hs Hc Hv. unfold VS.newton_step.
  rewrite price_valid by exact Hs. simpl.
  rewrite Rltb_false by (unfold converged in Hc; lra).
  rewrite vega_valid by exact Hs. simpl.
  rewrite Rltb_true; [reflexivity |].
  unfold vega_underflow in Hv. lra.
Qed.

Lemma newton_step_continue (sigma : R) :
  sigma <> 0 -> going sigma ->
  VS.newton_step market_price S K T r option_type tolerance sigma
  = Ok (VS.Continue (next sigma)).
Proof.
  intros Hs [Hc Hv]. unfold VS.newton_step.
  rewrite price_valid by exact Hs. simpl.
  rewrite Rltb_false by (unfold converged in Hc; lra).
  rewrite vega_valid by exact Hs. simpl.
  unfold vega_underflow in Hv.
  rewrite Rltb_false by lra.
  rewrite py_div_ok by lra. simpl.
  rewrite py_max_Rmax, py_min_Rmin.
  unfold newton_next, clamp.
  replace (vega_at sigma / 100 * 100) with (vega_at sigma) by lra.
  reflexivity.
Qed.

Lemma newton_loop_trace (n : nat) :
  forall sigma0 : R, sigma0 <> 0 ->
  (forall k : nat, (k < n)%nat ->
     (forall j : nat, (j < k)%nat -> going (iterate sigma0 j)) ->
     (conv (iterate sigma0 k) ->
      VS.newton_loop market_price S K T r option_type tolerance n sigma0
      = Ok (Some (iterate sigma0 k))) /\
     (~ conv (iterate sigma0 k) ->
      underflow (iterate sigma0 k) ->
      VS.newton_loop market_price S K T r option_type tolerance n sigma0
      = Ok None)) /\
  ((forall j : nat, (j < n)%nat -> going (iterate sigma0 j)) ->
   VS.newton_loop market_price S K T r option_type tolerance n sigma0
   = Ok None).
Proof.
  induction n as [| n IH]; intros sigma0 H0.
  - split; [intros k Hk; lia | reflexivity].
  - split.
    + intros [| k] Hk Hbefore.
      * simpl. split.
        -- intros Hc. rewrite newton_step_converged by assumption. reflexivity.
        -- intros Hc Hv. rewrite newton_step_underflow by assumption. reflexivity.
      * assert (Hgo : going sigma0) by (apply (Hbefore O); lia).
        destruct (IH (next sigma0) (newton_next_nonzero sigma0)) as [IHk _].
        assert (Hk' : (k < n)%nat) by lia.
        assert (Hbefore' : forall j, (j < k)%nat ->
                  going (iterate (next sigma0) j)).
        { intros j Hj. rewrite <- newton_iterate_shift. apply Hbefore. lia. }
        destruct (IHk k Hk' Hbefore') as [IHc IHv].
        rewrite newton_iterate_shift.
        change (VS.newton_loop market_price S K T r option_type tolerance
                  (Datatypes.S n) sigma0)
          with (o <- VS.newton_step market_price S K T r option_type tolerance sigma0 ;;
                match o with
                | VS.Return s => Ok (Some s)
                | VS.Break => Ok None
                | VS.Continue s =>
                    VS.newton_loop market_price S K T r option_type tolerance n s
                end).
        rewrite newton_step_continue by assumption. simpl.
        split; assumption.
    + intros Hall.
      assert (Hgo : going sigma0) by (apply (Hall O); lia).
      destruct (IH (next sigma0) (newton_next_nonzero sigma0)) as [_ IHn].
      simpl. rewrite newton_step_continue by assumption. simpl.
      apply IHn. intros j Hj. rewrite <- newton_iterate_shift. apply Hall. lia.
Qed.

End NewtonTrace.

(** ** Bounds on the series of [norm.cdf] for a small argument *)

Module NormalBounds.

Import Normal.

Lemma cdf_term_alt (y : R) (n : nat) :
  tg_alt (cdf_term y) n = cdf_n n * y ^ n.
Proof. unfold tg_alt, cdf_term, cdf_n. unfold Rdiv. ring. Qed.

Lemma cdf_term_nonneg (y : R) (n : nat) : 0 <= y -> 0 <= cdf_term y n.
Proof.
  intros Hy. unfold cdf_term, Rdiv. apply Rmult_le_pos.
  - apply pow_le; exact Hy.
  - left. apply Rinv_0_lt_compat, cdf_n_den_pos.
Qed.

Lemma cdf_den_le (n : nat) :
  INR (fact n) * INR (2 * n + 1) <= INR (fact (S n)) * INR (2 * S n + 1).
Proof.
  rewrite <- !mult_INR. apply le_INR.
  apply Nat.mul_le_mono; [| lia].
  rewrite fact_simpl. pose proof (lt_O_fact n). nia.
Qed.

Lemma cdf_term_decreasing (y : R) :
  0 <= y <= 1 -> Un_decreasing (cdf_term y).
Proof.
  intros [Hy0 Hy1] n. unfold cdf_term, Rdiv.
  pose proof (cdf_n_den_pos n) as Hn.
  pose proof (cdf_n_den_pos (S n)) as HSn.
  apply Rmult_le_compat.
  - apply pow_le; exact Hy0.
  - left. apply Rinv_0_lt_compat; exact HSn.
  - simpl. rewrite <- (Rmult_1_l (y ^ n)) at 2.
    apply Rmult_le_compat_r; [apply pow_le; exact Hy0 | exact Hy1].
  - apply Rinv_le_contravar; [exact Hn | apply cdf_den_le].
Qed.

Lemma cdf_term_le_inv (y : R) (n : nat) :
  0 <= y <= 1 -> cdf_term y n <= / INR (S n).
Proof.
  intros [Hy0 Hy1]. unfold cdf_term, Rdiv.
  rewrite <- (Rmult_1_l (/ INR (S n))).
  pose proof (cdf_n_den_pos n) as Hn.
  apply Rmult_le_compat.
  - apply pow_le; exact Hy0.
  - left. apply Rinv_0_lt_compat; exact Hn.
  - rewrite <- (pow1 n). apply pow_incr. split; assumption.
  - apply Rinv_le_contravar; [apply lt_0_INR; lia |].
    rewrite <- mult_INR. apply le_INR. pose proof (lt_O_fact n). nia.
Qed.

Lemma cdf_term_cv (y : R) : 0 <= y <= 1 -> Un_cv (cdf_term y) 0.
Proof.
  intros Hy eps Heps.
  destruct (inv_succ_small eps Heps) as [N HN].
  exists N. intros n Hn. unfold Rdist. rewrite Rminus_0_r.
  rewrite Rabs_pos_eq by (apply cdf_term_nonneg; tauto).
  apply Rle_lt_trans with (/ INR (S n)); [apply cdf_term_le_inv; exact Hy |].
  apply HN; exact Hn.
Qed.

Lemma cdf_series_cv (y : R) :
  Un_cv (fun N : nat => sum_f_R0 (tg_alt (cdf_term y)) N) (cdf_series y).
Proof.
  unfold cdf_series. destruct (exist_cdf_series y) as [l Hl]; simpl.
  intros eps Heps. destruct (Hl eps Heps) as [N HN].
  exists N. intros n Hn.
  rewrite (sum_eq _ (fun i : nat => cdf_n i * y ^ i)).
  - apply HN; exact Hn.
  - intros i _. apply cdf_term_alt.
Qed.

(** The first two partial sums bracket the series. *)
Lemma cdf_series_bounds (y : R) :
  0 <= y <= 1 -> 1 - y / 3 <= cdf_series y <= 1.
Proof.
  intros Hy.
  pose proof (alternated_series_ineq (cdf_term y) (cdf_series y) 0
                (cdf_term_decreasing y Hy) (cdf_term_cv y Hy)
                (cdf_series_cv y)) as [Hlo Hhi].
  simpl in Hlo, Hhi. unfold tg_alt, cdf_term in Hlo, Hhi. simpl in Hlo, Hhi.
  split; [eapply Rle_trans; [| exact Hlo] | eapply Rle_trans; [exact Hhi |]];
    right; field.
Qed.

End NormalBounds.

(** ** Numeric bounds used to evaluate the solver on concrete inputs *)

Lemma sqrt_2PI_bounds : 2 < sqrt (2 * PI) <= 3.
Proof.
  pose proof PI2_3_2 as Hlo. pose proof PI_4 as Hhi.
  split.
  - replace 2 with (sqrt (2 * 2)) at 1 by (apply sqrt_square; lra).
    apply sqrt_lt_1; lra.
  - replace 3 with (sqrt (3 * 3)) by (apply sqrt_square; lra).
    apply sqrt_le_1; lra.
Qed.

Lemma cdf_small_bounds (x : R) :
  0 <= x -> x * x <= 2 ->
  1 / 2 + x / 3 * (1 - x * x / 6) <= Normal.cdf x <= 1 / 2 + x / 2.
Proof.
  intros Hx Hxx.
  assert (Hy : 0 <= x * x / 2 <= 1) by nra.
  pose proof (NormalBounds.cdf_series_bounds (x * x / 2) Hy) as [Hlo Hhi].
  destruct sqrt_2PI_bounds as [Hs2 Hs3].
  unfold Normal.cdf.
  set (s := sqrt (2 * PI)) in *. set (c := Normal.cdf_series (x * x / 2)) in *.
  assert (Hinv3 : / 3 <= / s) by (apply Rinv_le_contravar; lra).
  assert (Hinv2 : / s <= / 2) by (apply Rinv_le_contravar; lra).
  assert (Hinv0 : 0 < / s) by (apply Rinv_0_lt_compat; lra).
  assert (Hc0 : 0 <= 1 - x * x / 6) by lra.
  unfold Rdiv in *.
  split.
  - assert (x * / 3 * (1 - x * x * / 6) <= x * / s * c); [| lra].
    apply Rmult_le_compat; nra.
  - assert (x * / s * c <= x * / 2 * 1); [| lra].
    apply Rmult_le_compat; nra.
Qed.

(** At the money with zero rate and one year to expiry, d1 = sigma / 2 and
    the call is worth 100 (2 Phi(sigma / 2) - 1). *)
Lemma atm_d1 (sigma : R) :
  sigma <> 0 -> d1_formula 100 100 1 0 sigma = sigma / 2.
Proof.
  intros Hs. unfold d1_formula.
  replace (100 / 100) with 1 by lra.
  rewrite ln_1, sqrt_1.
  replace 0.5 with (1 / 2) by lra. field. exact Hs.
Qed.

Lemma atm_d2 (sigma : R) :
  sigma <> 0 -> d2_formula 100 100 1 0 sigma = - (sigma / 2).
Proof.
  intros Hs. unfold d2_formula. rewrite atm_d1 by exact Hs.
  rewrite sqrt_1. lra.
Qed.

Lemma atm_call_price (sigma : R) :
  sigma <> 0 ->
  model_price 100 100 1 0 "call" sigma = 100 * (2 * Normal.cdf (sigma / 2) - 1).
Proof.
  intros Hs. unfold model_price; simpl.
  rewrite atm_d1, atm_d2 by exact Hs.
  rewrite cdf_opp.
  replace (- (0 * 1)) with 0 by lra. rewrite exp_0. lra.
Qed.

Lemma atm_call_price_bounds (sigma : R) :
  0 < sigma <= 2 ->
  100 * (sigma / 3 * (1 - sigma * sigma / 24))
  <= model_price 100 100 1 0 "call" sigma <= 50 * sigma.
Proof.
  intros [H0 H2].
  rewrite atm_call_price by lra.
  assert (Hx : 0 <= sigma / 2) by lra.
  assert (Hxx : sigma / 2 * (sigma / 2) <= 2) by nra.
  destruct (cdf_small_bounds (sigma / 2) Hx Hxx) as [Hlo Hhi].
  split; nra.
Qed.

Lemma rejected_atm_8 : VS.rejected 8 100 100 1 "call" = false.
Proof.
  destruct (VS.rejected 8 100 100 1 "call") eqn:E; [| reflexivity].
  apply rejected_true_iff in E.
  unfold VS.intrinsic_value in E; simpl in E. rewrite py_max_Rmax in E.
  unfold Rmax in E. destruct (Rle_dec 0 (100 - 100)); lra.
Qed.

Lemma objective_atm_8_lower_end :
  exists d : R,
    VS.objective 8 100 100 1 0 "call" 0.001 = VS.Finite d /\ 5 <= Rabs d.
Proof.
  exists (model_price 100 100 1 0 "call" 0.001 - 8). split.
  - unfold VS.objective.
    rewrite (price_valid 100 100 1 0 "call") by (try lra; left; reflexivity).
    reflexivity.
  - assert (Hr : 0 < 0.001 <= 2) by lra.
    destruct (atm_call_price_bounds 0.001 Hr) as [_ Hhi].
    rewrite Rabs_left by lra. lra.
Qed.

(** * Properties of the kernel *)

(** ** Pricing engine *)

(** C1. At or past expiration ([T <= 0]) the pricing engine skips the
    Black-Scholes formula: [call_price] is [max(0, S - K)], [put_price] is
    [max(0, K - S)], and [_d1] and [_d2] both return [0.0], whatever
    [S], [K], [r] and [sigma] are. *)
Theorem expired_option_is_intrinsic (S K T r sigma : R) :
  T <= 0 ->
  let bs := BlackScholesModel.mk S K T r sigma in
  BlackScholesModel.call_price bs = Ok (Rmax 0 (S - K)) /\
  BlackScholesModel.put_price bs = Ok (Rmax 0 (K - S)) /\
  BlackScholesModel._d1 bs = Ok 0 /\
  BlackScholesModel._d2 bs = Ok 0.
Proof.
  intros HT bs.
  unfold BlackScholesModel.call_price, BlackScholesModel.put_price,
    BlackScholesModel._d1, BlackScholesModel._d2; simpl.
  rewrite (Rleb_true T 0 HT), !py_max_Rmax. repeat split.
Qed.

Lemma expired_option_is_intrinsic_witness :
  0 <= 0 /\
  BlackScholesModel.call_price (BlackScholesModel.mk 100 90 0 0.05 0.2)
  = Ok (Rmax 0 (100 - 90)).
Proof.
  split; [lra |].
  apply (expired_option_is_intrinsic 100 90 0 0.05 0.2). lra.
Defined.

(** ** Greeks engine *)

(** C5. For [T <= 0] the Greeks engine returns gamma = theta = vega = rho = 0
    and the degenerate delta: for a call 1 if [S > K] else 0, for a put
    -1 if [S < K] else 0. *)
Theorem expired_greeks (S K T r sigma : R) (option_type : string) :
  T <= 0 ->
  let g := Greeks.__init__ S K T r sigma option_type in
  Greeks.gamma g = Ok 0 /\
  Greeks.theta g = Ok 0 /\
  Greeks.vega g = Ok 0 /\
  Greeks.rho g = Ok 0 /\
  (lower option_type = "call"%string ->
   Greeks.delta g = Ok (if Rlt_dec K S then 1 else 0)) /\
  (lower option_type = "put"%string ->
   Greeks.delta g = Ok (if Rlt_dec S K then -1 else 0)).
Proof.
  intros HT g.
  unfold Greeks.gamma, Greeks.theta, Greeks.vega, Greeks.rho, Greeks.delta,
    Greeks.is_call; simpl.
  rewrite (Rleb_true T 0 HT).
  repeat split; intros E; rewrite E; unfold Rltb; simpl.
  - destruct (Rlt_dec K S); reflexivity.
  - destruct (Rlt_dec S K); reflexivity.
Qed.

Lemma expired_greeks_witness :
  (0 <= 0 /\ lower "CALL" = "call"%string) /\
  Greeks.delta (Greeks.__init__ 100 90 0 0.05 0.2 "CALL")
  = Ok (if Rlt_dec 90 100 then 1 else 0).
Proof.
  split; [split; [lra | reflexivity] |].
  apply (expired_greeks 100 90 0 0.05 0.2 "CALL"); [lra | reflexivity].
Defined.



(** ** Volatility solver *)

(** C3. [calculate_implied_volatility] never raises.  It returns [None]
    when [T <= 0], when [market_price <= 0], when [market_price] is strictly
    below the intrinsic floor ([max(0, S - K)] for "call", [max(0, K - S)]
    for "put"), and when the bracketed search raises and the fallback does
    not converge either. *)
Theorem implied_volatility_never_raises
        (brentq : VS.brentq_t) (market_price S K T r : R) (option_type : string)
        (initial_guess : R) (max_iterations : Z) (tolerance : R) :
  let iv := VS.calculate_implied_volatility brentq market_price S K T r
              option_type initial_guess max_iterations tolerance in
  (exists v, iv = Ok v) /\
  (T <= 0 -> iv = Ok None) /\
  (market_price <= 0 -> iv = Ok None) /\
  (option_type = "call"%string -> market_price < Rmax 0 (S - K) -> iv = Ok None) /\
  (option_type = "put"%string -> market_price < Rmax 0 (K - S) -> iv = Ok None) /\
  (raises (brentq (VS.objective market_price S K T r option_type) 0.001 5.0
             (VS.mk_kwargs max_iterations tolerance)) ->
   (forall sigma,
      VS.newton_loop market_price S K T r option_type tolerance
        (Z.to_nat max_iterations) initial_guess <> Ok (Some sigma)) ->
   iv = Ok None).
Proof.
  intros iv. subst iv. rewrite calculate_implied_volatility_unfold.
  pose proof (rejected_true_iff market_price S K T option_type) as Hrej.
  repeat split.
  - destruct (VS.rejected _ _ _ _ _); [eexists; reflexivity |].
    apply root_search_total.
  - intros HT. rewrite (proj2 Hrej); [reflexivity | tauto].
  - intros Hm. rewrite (proj2 Hrej); [reflexivity | tauto].
  - intros E Hlt. rewrite (proj2 Hrej); [reflexivity |].
    right; right. unfold VS.intrinsic_value. rewrite E; simpl.
    rewrite py_max_Rmax. exact Hlt.
  - intros E Hlt. rewrite (proj2 Hrej); [reflexivity |].
    right; right. unfold VS.intrinsic_value. rewrite E; simpl.
    rewrite py_max_Rmax. exact Hlt.
  - intros [e He] Hnewton.
    destruct (VS.rejected _ _ _ _ _); [reflexivity |].
    unfold VS.root_search, VS.brent_search. rewrite He; simpl.
    unfold VS.newton_raphson, try_except.
    destruct (VS.newton_loop _ _ _ _ _ _ _ _ _) as [[s | ] | e'] eqn:E;
      try reflexivity.
    exfalso. exact (Hnewton s eq_refl).
Qed.

Lemma implied_volatility_never_raises_witness :
  ("call"%string = "call"%string /\ 1 < Rmax 0 (100 - 50)) /\
  VS.calculate_implied_volatility brentq_sign_error 1 100 50 0.25 0.05 "call"
    VS.default_initial_guess VS.default_max_iterations VS.default_tolerance
  = Ok None.
Proof.
  assert (H : 1 < Rmax 0 (100 - 50)).
  { unfold Rmax. destruct (Rle_dec 0 (100 - 50)); lra. }
  split; [split; [reflexivity | exact H] |].
  destruct (implied_volatility_never_raises brentq_sign_error 1 100 50 0.25 0.05
              "call" VS.default_initial_guess VS.default_max_iterations
              VS.default_tolerance) as (_ & _ & _ & Hcall & _).
  apply Hcall; [reflexivity | exact H].
Defined.

(** C7, counterexample.  With [tolerance = 5] the lower end of the bracket
    is within [xtol] of every point of [0.001, 5.0]; a root-finder that
    returns it meets the [xtol] guarantee, the solver returns 0.001, and the
    model price there misses the market price 8 by more than 5. *)
Lemma primary_search_tolerance_is_not_on_price :
  VS.calculate_implied_volatility brentq_lower_end 8 100 100 1 0 "call" 0.3 100 5
  = Ok (Some 0.001) /\
  xtol_guarantee (VS.objective 8 100 100 1 0 "call") 0.001 5.0 5 0.001 /\
  (exists d : R,
     VS.objective 8 100 100 1 0 "call" 0.001 = VS.Finite d /\ 5 <= Rabs d) /\
  ~ primary_search_converges_on_price.
Proof.
  assert (Hg : xtol_guarantee (VS.objective 8 100 100 1 0 "call") 0.001 5.0 5 0.001).
  { split; [lra |]. intros x Hx _. apply Rabs_le. lra. }
  split; [| split; [exact Hg | split; [exact objective_atm_8_lower_end |]]].
  - rewrite calculate_implied_volatility_unfold, rejected_atm_8. reflexivity.
  - intros Hclaim.
    destruct (Hclaim brentq_lower_end 8 100 100 1 0 "call"%string 100%Z 5 0.001
                rejected_atm_8 eq_refl Hg) as (d & Hd & Hlt).
    destruct objective_atm_8_lower_end as (d' & Hd' & Hge).
    rewrite Hd in Hd'. inversion Hd'; subst. lra.
Qed.

(** C7, amended.  The primary search is the single call
    [brentq(objective, 0.001, 5.0, maxiter=max_iterations, xtol=tolerance)]:
    the bracket is [0.001, 5.0], [max_iterations] bounds the iterations and
    [tolerance] (default 1e-6) is handed over as [xtol], the tolerance on
    sigma.  What [brentq] returns is returned as it is, and the solver
    depends on [brentq] through this call only. *)
Theorem primary_search_is_brentq_call
        (brentq brentq' : VS.brentq_t) (market_price S K T r : R)
        (option_type : string) (initial_guess : R) (max_iterations : Z)
        (tolerance : R) :
  let f := VS.objective market_price S K T r option_type in
  let kw := {| VS.maxiter := max_iterations; VS.xtol := tolerance |} in
  VS.default_tolerance = 1e-6 /\
  (forall x0 : R,
     VS.rejected market_price S K T option_type = false ->
     brentq f 0.001 5.0 kw = Ok x0 ->
     VS.calculate_implied_volatility brentq market_price S K T r option_type
       initial_guess max_iterations tolerance = Ok (Some x0)) /\
  (brentq f 0.001 5.0 kw = brentq' f 0.001 5.0 kw ->
   VS.calculate_implied_volatility brentq market_price S K T r option_type
     initial_guess max_iterations tolerance
   = VS.calculate_implied_volatility brentq' market_price S K T r option_type
       initial_guess max_iterations tolerance).
Proof.
  intros f kw. split; [reflexivity |]. split.
  - intros x0 Hrej Hx.
    rewrite calculate_implied_volatility_unfold, Hrej.
    unfold VS.root_search, VS.brent_search. fold f kw. rewrite Hx. reflexivity.
  - intros Heq.
    rewrite !calculate_implied_volatility_unfold.
    unfold VS.root_search, VS.brent_search. fold f kw. rewrite Heq. reflexivity.
Qed.

Lemma primary_search_is_brentq_call_witness :
  (VS.rejected 8 100 100 1 "call" = false /\
   brentq_lower_end (VS.objective 8 100 100 1 0 "call") 0.001 5.0
     {| VS.maxiter := 100; VS.xtol := 1e-6 |} = Ok 0.001) /\
  VS.calculate_implied_volatility brentq_lower_end 8 100 100 1 0 "call"
    0.3 100 1e-6 = Ok (Some 0.001).
Proof.
  split; [split; [exact rejected_atm_8 | reflexivity] |].
  destruct (primary_search_is_brentq_call brentq_lower_end brentq_lower_end
              8 100 100 1 0 "call" 0.3 100 1e-6) as (_ & Hret & _).
  apply Hret; [exact rejected_atm_8 | reflexivity].
Defined.

(** * Further properties of the kernel *)

(** ** Reading comparisons back *)

Lemma Rltb_true_inv (a b : R) : Rltb a b = true -> a < b.
Proof. unfold Rltb. destruct (Rlt_dec a b); [trivial | discriminate]. Qed.

Lemma Rltb_false_inv (a b : R) : Rltb a b = false -> b <= a.
Proof. unfold Rltb. destruct (Rlt_dec a b); [discriminate | lra]. Qed.

Lemma Rleb_true_inv (a b : R) : Rleb a b = true -> a <= b.
Proof. unfold Rleb. destruct (Rle_dec a b); [trivial | discriminate]. Qed.

Lemma Rleb_false_inv (a b : R) : Rleb a b = false -> b < a.
Proof. unfold Rleb. destruct (Rle_dec a b); [discriminate | lra]. Qed.

Lemma bind_ok_inv {A B : Type} (m : result A) (k : A -> result B) (b : B) :
  bind m k = Ok b -> exists a, m = Ok a /\ k a = Ok b.
Proof.
  destruct m as [a | e]; simpl; intros H; [| discriminate].
  exists a. split; [reflexivity | exact H].
Qed.

(** ** The Newton-Raphson fallback *)

Section NewtonSound.

Variables (market_price S K T r : R) (option_type : string) (tolerance : R).

Local Abbreviation price_of :=
  (fun sigma : R =>
     BlackScholesModel.price (BlackScholesModel.mk S K T r sigma) option_type).
Local Abbreviation step :=
  (VS.newton_step market_price S K T r option_type tolerance).
Local Abbreviation loop :=
  (VS.newton_loop market_price S K T r option_type tolerance).

(** What one pass through the loop body guarantees about its outcome. *)
Lemma newton_step_inv (sigma : R) (o : VS.step_outcome) :
  step sigma = Ok o ->
  match o with
  | VS.Return s =>
      s = sigma /\
      exists p, price_of sigma = Ok p /\ Rabs (p - market_price) < tolerance
  | VS.Break => True
  | VS.Continue s => 0.001 <= s <= 5.0
  end.
Proof.
  unfold VS.newton_step. intros H.
  apply bind_ok_inv in H. destruct H as (p & Hp & H).
  destruct (Rltb (Rabs (p - market_price)) tolerance) eqn:Hc.
  - inversion H; subst. split; [reflexivity |].
    exists p. split; [exact Hp | apply Rltb_true_inv; exact Hc].
  - apply bind_ok_inv in H. destruct H as (v & _ & H).
    destruct (Rltb (v * 100) 1e-10).
    + inversion H; subst. exact I.
    + apply bind_ok_inv in H. destruct H as (q & _ & H).
      inversion H; subst.
      rewrite py_max_Rmax, py_min_Rmin. apply clamp_range.
Qed.

Lemma newton_loop_sound (n : nat) :
  forall sigma0 s : R,
    loop n sigma0 = Ok (Some s) ->
    (exists p, price_of s = Ok p /\ Rabs (p - market_price) < tolerance) /\
    (s = sigma0 \/ 0.001 <= s <= 5.0).
Proof.
  induction n as [| n IH]; intros sigma0 s H; [discriminate |].
  simpl in H. apply bind_ok_inv in H. destruct H as (o & Ho & H).
  pose proof (newton_step_inv sigma0 o Ho) as Hinv.
  destruct o as [s' | | s'].
  - inversion H; subst. destruct Hinv as [-> Hp]. split; [exact Hp | left; reflexivity].
  - discriminate.
  - destruct (IH s' s H) as [Hp [-> | Hr]]; (split; [exact Hp | right]); assumption.
Qed.

Lemma newton_loop_nonpositive_tolerance (n : nat) :
  tolerance <= 0 -> forall sigma0 s : R, loop n sigma0 <> Ok (Some s).
Proof.
  intros Htol sigma0 s H.
  destruct (newton_loop_sound n sigma0 s H) as [(p & _ & Hp) _].
  pose proof (Rabs_pos (p - market_price)). lra.
Qed.

End NewtonSound.

Lemma newton_raphson_some_inv
      (market_price S K T r : R) (option_type : string)
      (initial_guess : R) (max_iterations : Z) (tolerance s : R) :
  VS.newton_raphson market_price S K T r option_type
    initial_guess max_iterations tolerance = Ok (Some s) ->
  VS.newton_loop market_price S K T r option_type tolerance
    (Z.to_nat max_iterations) initial_guess = Ok (Some s).
Proof.
  unfold VS.newton_raphson, try_except.
  destruct (VS.newton_loop _ _ _ _ _ _ _ _ _) as [v | e]; intros H;
    [exact H | discriminate].
Qed.

Lemma newton_raphson_atm_example :
  VS.newton_raphson 12 100 100 1 0 "call" 0.3 100 5 = Ok (Some 0.3).
Proof.
  assert (Hc : converged 12 100 100 1 0 "call" 5 0.3).
  { unfold converged.
    assert (Hr : 0 < 0.3 <= 2) by lra.
    destruct (atm_call_price_bounds 0.3 Hr) as [Hlo Hhi].
    apply Rabs_def1; lra. }
  assert (H3 : 0.3 <> 0) by lra.
  destruct (newton_loop_trace 12 100 100 1 0 "call" 5
              ltac:(lra) ltac:(lra) ltac:(lra) (or_introl eq_refl)
              (Z.to_nat 100) 0.3 H3) as [Hfirst _].
  assert (Hk : (0 < Z.to_nat 100)%nat) by (vm_compute; lia).
  destruct (Hfirst O Hk) as [Hconv _]; [intros j Hj; lia |].
  unfold VS.newton_raphson. rewrite (Hconv Hc). reflexivity.
Qed.

(** X1. Soundness of the fallback: a volatility returned by the
    Newton-Raphson loop reprices the option to within [tolerance] of the
    market price, and it is either the initial guess or a value of
    [0.001, 5.0]; this needs [tolerance > 0] and [max_iterations > 0]. *)
Theorem newton_raphson_sound
        (market_price S K T r : R) (option_type : string)
        (initial_guess : R) (max_iterations : Z) (tolerance s : R) :
  VS.newton_raphson market_price S K T r option_type
    initial_guess max_iterations tolerance = Ok (Some s) ->
  (exists p : R,
     BlackScholesModel.price (BlackScholesModel.mk S K T r s) option_type = Ok p /\
     Rabs (p - market_price) < tolerance) /\
  (s = initial_guess \/ 0.001 <= s <= 5.0) /\
  0 < tolerance /\ (0 < max_iterations)%Z.
Proof.
  intros H. apply newton_raphson_some_inv in H.
  destruct (newton_loop_sound market_price S K T r option_type tolerance
              (Z.to_nat max_iterations) initial_guess s H) as [Hp Hs].
  split; [exact Hp |]. split; [exact Hs |]. split.
  - destruct Hp as (p & _ & Hlt). pose proof (Rabs_pos (p - market_price)). lra.
  - destruct (Z.to_nat max_iterations) eqn:E; [discriminate H | lia].
Qed.

Lemma newton_raphson_sound_witness :
  VS.newton_raphson 12 100 100 1 0 "call" 0.3 100 5 = Ok (Some 0.3) /\
  exists p : R,
    BlackScholesModel.price (BlackScholesModel.mk 100 100 1 0 0.3) "call" = Ok p /\
    Rabs (p - 12) < 5.
Proof.
  split; [exact newton_raphson_atm_example |].
  apply (newton_raphson_sound 12 100 100 1 0 "call" 0.3 100 5 0.3
           newton_raphson_atm_example).
Defined.

(** X2. With [tolerance <= 0] or [max_iterations <= 0] the fallback returns
    [None] whatever the other inputs are, so the solver returns [None]
    whenever [brentq] raises. *)
Theorem newton_raphson_degenerate_budget
        (brentq : VS.brentq_t) (market_price S K T r : R) (option_type : string)
        (initial_guess : R) (max_iterations : Z) (tolerance : R) :
  tolerance <= 0 \/ (max_iterations <= 0)%Z ->
  VS.newton_raphson market_price S K T r option_type
    initial_guess max_iterations tolerance = Ok None /\
  (raises (brentq (VS.objective market_price S K T r option_type) 0.001 5.0
             (VS.mk_kwargs max_iterations tolerance)) ->
   VS.calculate_implied_volatility brentq market_price S K T r option_type
     initial_guess max_iterations tolerance = Ok None).
Proof.
  intros Hdeg.
  assert (Hn : VS.newton_raphson market_price S K T r option_type
                 initial_guess max_iterations tolerance = Ok None).
  { unfold VS.newton_raphson, try_except.
    destruct (VS.newton_loop market_price S K T r option_type tolerance
                (Z.to_nat max_iterations) initial_guess) as [[s |] | e] eqn:E;
      try reflexivity.
    exfalso. destruct Hdeg as [Htol | Hmax].
    - exact (newton_loop_nonpositive_tolerance market_price S K T r option_type
               tolerance _ Htol _ _ E).
    - replace (Z.to_nat max_iterations) with O in E by lia. discriminate E. }
  split; [exact Hn |].
  intros [e He]. rewrite calculate_implied_volatility_unfold.
  destruct (VS.rejected _ _ _ _ _); [reflexivity |].
  unfold VS.root_search, VS.brent_search. rewrite He. simpl. exact Hn.
Qed.

Lemma newton_raphson_degenerate_budget_witness :
  (0 <= 0 \/ (100 <= 0)%Z) /\
  VS.calculate_implied_volatility brentq_sign_error 8 100 100 1 0 "call" 0.3 100 0
  = Ok None.
Proof.
  split; [left; lra |].
  apply (newton_raphson_degenerate_budget brentq_sign_error 8 100 100 1 0 "call"
           0.3 100 0); [left; lra |].
  eexists; reflexivity.
Defined.

(** X3. Every volatility the solver returns comes from an input that passed
    the checks ([T > 0], [market_price > 0], price not below the floor), and
    is either the value [brentq] returned or, after [brentq] raised, a value
    of the fallback that reprices to within [tolerance]. *)
Theorem implied_volatility_provenance
        (brentq : VS.brentq_t) (market_price S K T r : R) (option_type : string)
        (initial_guess : R) (max_iterations : Z) (tolerance x : R) :
  VS.calculate_implied_volatility brentq market_price S K T r option_type
    initial_guess max_iterations tolerance = Ok (Some x) ->
  (0 < T /\ 0 < market_price /\
   VS.intrinsic_value S K option_type <= market_price) /\
  (brentq (VS.objective market_price S K T r option_type) 0.001 5.0
     (VS.mk_kwargs max_iterations tolerance) = Ok x
   \/
   (raises (brentq (VS.objective market_price S K T r option_type) 0.001 5.0
              (VS.mk_kwargs max_iterations tolerance)) /\
    (x = initial_guess \/ 0.001 <= x <= 5.0) /\
    exists p : R,
      BlackScholesModel.price (BlackScholesModel.mk S K T r x) option_type = Ok p /\
      Rabs (p - market_price) < tolerance)).
Proof.
  rewrite calculate_implied_volatility_unfold.
  destruct (VS.rejected market_price S K T option_type) eqn:Hrej;
    [discriminate |].
  intros H. split.
  - pose proof (rejected_true_iff market_price S K T option_type) as Hiff.
    destruct (Rle_dec T 0) as [HT | HT];
      [rewrite (proj2 Hiff) in Hrej; [discriminate | tauto] |].
    destruct (Rle_dec market_price 0) as [Hm | Hm];
      [rewrite (proj2 Hiff) in Hrej; [discriminate | tauto] |].
    destruct (Rlt_dec market_price (VS.intrinsic_value S K option_type)) as [Hf | Hf];
      [rewrite (proj2 Hiff) in Hrej; [discriminate | tauto] |].
    lra.
  - unfold VS.root_search, VS.brent_search in H.
    destruct (brentq _ _ _ _) as [x0 | e]; simpl in H.
    + left. inversion H; reflexivity.
    + right. split; [eexists; reflexivity |].
      apply newton_raphson_some_inv in H.
      destruct (newton_loop_sound market_price S K T r option_type tolerance
                  _ _ _ H) as [Hp Hs].
      split; assumption.
Qed.

Lemma implied_volatility_provenance_witness :
  VS.calculate_implied_volatility brentq_lower_end 8 100 100 1 0 "call" 0.3 100 5
  = Ok (Some 0.001) /\
  0 < 1 /\ 0 < 8 /\ VS.intrinsic_value 100 100 "call" <= 8.
Proof.
  assert (H : VS.calculate_implied_volatility brentq_lower_end 8 100 100 1 0
                "call" 0.3 100 5 = Ok (Some 0.001)).
  { rewrite calculate_implied_volatility_unfold, rejected_atm_8. reflexivity. }
  split; [exact H |].
  exact (proj1 (implied_volatility_provenance brentq_lower_end 8 100 100 1 0
                  "call" 0.3 100 5 0.001 H)).
Defined.

(** ** Where the arithmetic raises *)

Section D1Errors.

Variables S K T r sigma : R.
Hypothesis HT : 0 < T.

Local Abbreviation bs := (BlackScholesModel.mk S K T r sigma).

Lemma bs_d1_zero_strike :
  K = 0 -> BlackScholesModel._d1 bs = Raise ZeroDivisionError.
Proof.
  intros HK. unfold BlackScholesModel._d1; simpl.
  rewrite (Rleb_false T 0 HT). unfold py_div.
  destruct (Req_dec_T K 0); [reflexivity | contradiction].
Qed.

Lemma bs_d1_log_domain :
  K <> 0 -> S / K <= 0 -> BlackScholesModel._d1 bs = Raise math_domain_error.
Proof.
  intros HK Hq. unfold BlackScholesModel._d1; simpl.
  rewrite (Rleb_false T 0 HT), (py_div_ok S K HK). simpl.
  unfold math_log. destruct (Rle_dec (S / K) 0); [reflexivity | contradiction].
Qed.

Lemma bs_d1_zero_volatility :
  K <> 0 -> 0 < S / K -> sigma = 0 ->
  BlackScholesModel._d1 bs = Raise ZeroDivisionError.
Proof.
  intros HK Hq Hs. unfold BlackScholesModel._d1; simpl.
  rewrite (Rleb_false T 0 HT), (py_div_ok S K HK). simpl.
  rewrite (math_log_ok _ Hq). simpl.
  rewrite math_sqrt_ok by lra. simpl.
  unfold py_div. destruct (Req_dec_T (sigma * sqrt T) 0) as [_ | Hn];
    [reflexivity |].
  exfalso. apply Hn. rewrite Hs. ring.
Qed.

Lemma bs_d1_general :
  K <> 0 -> 0 < S / K -> sigma <> 0 ->
  BlackScholesModel._d1 bs = Ok (d1_formula S K T r sigma).
Proof.
  intros HK Hq Hs. unfold BlackScholesModel._d1; simpl.
  rewrite (Rleb_false T 0 HT), (py_div_ok S K HK). simpl.
  rewrite (math_log_ok _ Hq). simpl.
  rewrite math_sqrt_ok by lra. simpl.
  rewrite py_div_ok; [reflexivity |].
  pose proof (sqrt_lt_R0 T HT).
  apply Rmult_integral_contrapositive_currified; lra.
Qed.

(** An error in [_d1] is the error of both prices. *)
Lemma prices_raise_with_d1 (e : exn) :
  BlackScholesModel._d1 bs = Raise e ->
  BlackScholesModel.call_price bs = Raise e /\
  BlackScholesModel.put_price bs = Raise e.
Proof.
  intros H. unfold BlackScholesModel.call_price, BlackScholesModel.put_price.
  rewrite H. simpl. rewrite (Rleb_false T 0 HT). split; reflexivity.
Qed.

Lemma prices_ok_with_d1 (d1 : R) :
  BlackScholesModel._d1 bs = Ok d1 ->
  BlackScholesModel.call_price bs
  = Ok (S * Normal.cdf d1
        - K * exp (- r * T) * Normal.cdf (d1 - sigma * sqrt T)) /\
  BlackScholesModel.put_price bs
  = Ok (K * exp (- r * T) * Normal.cdf (- (d1 - sigma * sqrt T))
        - S * Normal.cdf (- d1)).
Proof.
  intros H.
  unfold BlackScholesModel.call_price, BlackScholesModel.put_price,
    BlackScholesModel._d2.
  rewrite H. simpl. rewrite (Rleb_false T 0 HT), math_sqrt_ok by lra.
  split; reflexivity.
Qed.

End D1Errors.

Lemma greeks_d1_is_bs_d1 (S K T r sigma : R) (option_type : string) :
  Greeks._d1 (Greeks.mk S K T r sigma option_type)
  = BlackScholesModel._d1 (BlackScholesModel.mk S K T r sigma) /\
  Greeks._d2 (Greeks.mk S K T r sigma option_type)
  = BlackScholesModel._d2 (BlackScholesModel.mk S K T r sigma).
Proof. split; reflexivity. Qed.

Lemma greeks_raise_with_d1 (g : Greeks.t) (e : exn) :
  0 < Greeks.T g ->
  Greeks._d1 g = Raise e ->
  Greeks.delta g = Raise e /\ Greeks.gamma g = Raise e /\
  Greeks.theta g = Raise e /\ Greeks.vega g = Raise e /\
  Greeks.rho g = Raise e /\ Greeks.all_greeks g = Raise e.
Proof.
  intros HT H.
  assert (Hd : Greeks.delta g = Raise e).
  { unfold Greeks.delta. rewrite H, (Rleb_false _ 0 HT). reflexivity. }
  unfold Greeks.all_greeks. rewrite Hd.
  unfold Greeks.gamma, Greeks.theta, Greeks.vega, Greeks.rho, Greeks._d2.
  rewrite H, (Rleb_false _ 0 HT). simpl. repeat split.
Qed.

Lemma objective_of_raise (market_price S K T r : R) (option_type : string)
      (sigma : R) (e : exn) :
  BlackScholesModel.price (BlackScholesModel.mk S K T r sigma) option_type
  = Raise e ->
  VS.objective market_price S K T r option_type sigma = VS.PlusInf.
Proof. intros H. unfold VS.objective. rewrite H. reflexivity. Qed.

Lemma newton_raphson_of_raise (market_price S K T r : R) (option_type : string)
      (initial_guess : R) (max_iterations : Z) (tolerance : R) (e : exn) :
  BlackScholesModel.price (BlackScholesModel.mk S K T r initial_guess) option_type
  = Raise e ->
  VS.newton_raphson market_price S K T r option_type
    initial_guess max_iterations tolerance = Ok None.
Proof.
  intros H. unfold VS.newton_raphson.
  destruct (Z.to_nat max_iterations) as [| n]; [reflexivity |].
  simpl. unfold VS.newton_step. rewrite H. reflexivity.
Qed.

Lemma price_raise_any_side (S K T r sigma : R) (option_type : string) (e : exn) :
  BlackScholesModel.call_price (BlackScholesModel.mk S K T r sigma) = Raise e ->
  BlackScholesModel.put_price (BlackScholesModel.mk S K T r sigma) = Raise e ->
  exists e', BlackScholesModel.price (BlackScholesModel.mk S K T r sigma)
               option_type = Raise e'.
Proof.
  intros Hc Hp. unfold BlackScholesModel.price.
  destruct (String.eqb (lower option_type) "call"); [eexists; exact Hc |].
  destruct (String.eqb (lower option_type) "put"); eexists; [exact Hp | reflexivity].
Qed.

(** X6. With an [option_type] that is neither a call nor a put the solver
    does not raise: the floor is the put floor, the objective is [inf] for
    every sigma, the fallback returns [None], and the solver can only return
    what [brentq] itself returns for that objective. *)
Theorem implied_volatility_unknown_side
        (brentq : VS.brentq_t) (market_price S K T r : R) (option_type : string)
        (initial_guess : R) (max_iterations : Z) (tolerance : R) :
  lower option_type <> "call"%string -> lower option_type <> "put"%string ->
  VS.intrinsic_value S K option_type = Rmax 0 (K - S) /\
  (forall sigma : R,
     VS.objective market_price S K T r option_type sigma = VS.PlusInf) /\
  VS.newton_raphson market_price S K T r option_type
    initial_guess max_iterations tolerance = Ok None /\
  (forall x : R,
     VS.calculate_implied_volatility brentq market_price S K T r option_type
       initial_guess max_iterations tolerance = Ok (Some x) ->
     brentq (VS.objective market_price S K T r option_type) 0.001 5.0
       (VS.mk_kwargs max_iterations tolerance) = Ok x).
Proof.
  intros Hc Hp.
  assert (Hprice : forall sigma,
            BlackScholesModel.price (BlackScholesModel.mk S K T r sigma) option_type
            = Raise BlackScholesModel.invalid_option_type).
  { intros sigma. unfold BlackScholesModel.price.
    apply String.eqb_neq in Hc. apply String.eqb_neq in Hp.
    rewrite Hc, Hp. reflexivity. }
  assert (Hn : VS.newton_raphson market_price S K T r option_type
                 initial_guess max_iterations tolerance = Ok None)
    by exact (newton_raphson_of_raise _ _ _ _ _ _ _ _ _ _ (Hprice initial_guess)).
  split; [| split; [| split; [exact Hn |]]].
  - unfold VS.intrinsic_value.
    destruct (String.eqb_spec option_type "call") as [E | E].
    + exfalso. apply Hc. rewrite E. reflexivity.
    + apply py_max_Rmax.
  - intros sigma. exact (objective_of_raise _ _ _ _ _ _ _ _ (Hprice sigma)).
  - intros x H.
    rewrite calculate_implied_volatility_unfold in H.
    destruct (VS.rejected _ _ _ _ _); [discriminate |].
    unfold VS.root_search, VS.brent_search in H.
    destruct (brentq _ _ _ _) as [x0 | e]; simpl in H.
    + inversion H; reflexivity.
    + rewrite Hn in H. discriminate.
Qed.

Lemma implied_volatility_unknown_side_witness :
  (lower "xyz" <> "call"%string /\ lower "xyz" <> "put"%string) /\
  VS.objective 8 100 100 1 0 "xyz" 0.2 = VS.PlusInf /\
  VS.newton_raphson 8 100 100 1 0 "xyz" 0.3 100 1e-6 = Ok None.
Proof.
  assert (Hc : lower "xyz" <> "call"%string) by discriminate.
  assert (Hp : lower "xyz" <> "put"%string) by discriminate.
  split; [split; assumption |].
  destruct (implied_volatility_unknown_side brentq_sign_error 8 100 100 1 0
              "xyz" 0.3 100 1e-6 Hc Hp) as (_ & Hobj & Hn & _).
  split; [apply Hobj | exact Hn].
Defined.

(** ** The Greeks on valid inputs *)

Lemma pdf_pos (x : R) : 0 < Normal.pdf x.
Proof.
  unfold Normal.pdf. apply Rdiv_lt_0_compat; [apply exp_pos | exact sqrt_2PI_pos].
Qed.

Section GreeksValid.

Variables (S K T r sigma : R) (option_type : string).
Hypothesis HS : 0 < S.
Hypothesis HK : 0 < K.
Hypothesis HT : 0 < T.
Hypothesis Hsigma : sigma <> 0.

Local Abbreviation g := (Greeks.__init__ S K T r sigma option_type).
Local Abbreviation d1 := (d1_formula S K T r sigma).
Local Abbreviation d2 := (d2_formula S K T r sigma).
Local Abbreviation side_is_call := (String.eqb (lower option_type) "call").

Lemma sqrt_T_pos : 0 < sqrt T.
Proof. apply sqrt_lt_R0; exact HT. Qed.

Lemma greeks_delta_valid :
  Greeks.delta g
  = Ok (if side_is_call then Normal.cdf d1 else Normal.cdf d1 - 1).
Proof.
  unfold Greeks.delta, Greeks.__init__.
  rewrite greeks_d1_valid by assumption. unfold Greeks.is_call; simpl.
  rewrite (Rleb_false T 0 HT). destruct side_is_call; reflexivity.
Qed.

Lemma greeks_gamma_valid :
  Greeks.gamma g = Ok (Normal.pdf d1 / (S * sigma * sqrt T)).
Proof.
  pose proof sqrt_T_pos as Hsq.
  unfold Greeks.gamma, Greeks.__init__.
  rewrite greeks_d1_valid by assumption. simpl.
  rewrite (Rleb_false T 0 HT), math_sqrt_ok by lra. simpl.
  apply py_div_ok.
  repeat apply Rmult_integral_contrapositive_currified; lra.
Qed.

Lemma greeks_theta_valid :
  Greeks.theta g
  = Ok ((if side_is_call
         then - (S * Normal.pdf d1 * sigma) / (2 * sqrt T)
              - r * K * exp (- r * T) * Normal.cdf d2
         else - (S * Normal.pdf d1 * sigma) / (2 * sqrt T)
              + r * K * exp (- r * T) * Normal.cdf (- d2)) / 365).
Proof.
  pose proof sqrt_T_pos as Hsq.
  unfold Greeks.theta, Greeks.__init__.
  rewrite greeks_d1_valid, greeks_d2_valid by assumption.
  unfold Greeks.is_call; simpl.
  rewrite (Rleb_false T 0 HT), math_sqrt_ok by lra. simpl.
  rewrite py_div_ok by lra. simpl.
  destruct side_is_call; reflexivity.
Qed.

Lemma greeks_vega_valid :
  Greeks.vega g = Ok (S * Normal.pdf d1 * sqrt T / 100).
Proof.
  unfold Greeks.vega, Greeks.__init__.
  rewrite greeks_d1_valid by assumption. simpl.
  rewrite (Rleb_false T 0 HT), math_sqrt_ok by lra. reflexivity.
Qed.

Lemma greeks_rho_valid :
  Greeks.rho g
  = Ok ((if side_is_call
         then K * T * exp (- r * T) * Normal.cdf d2
         else - K * T * exp (- r * T) * Normal.cdf (- d2)) / 100).
Proof.
  unfold Greeks.rho, Greeks.__init__.
  rewrite greeks_d2_valid by assumption.
  unfold Greeks.is_call; simpl.
  rewrite (Rleb_false T 0 HT). destruct side_is_call; reflexivity.
Qed.

End GreeksValid.

(** X10. At or past expiration the call and put values are non-negative, at
    most one of them is non-zero, and they satisfy parity without
    discounting: call - put = S - K. *)
Theorem expiry_put_call_parity (S K T r sigma : R) :
  T <= 0 ->
  exists c p : R,
    BlackScholesModel.call_price (BlackScholesModel.mk S K T r sigma) = Ok c /\
    BlackScholesModel.put_price (BlackScholesModel.mk S K T r sigma) = Ok p /\
    c - p = S - K /\ 0 <= c /\ 0 <= p /\ c * p = 0.
Proof.
  intros HT. eexists; eexists.
  split; [apply bs_call_price_expired; exact HT |].
  split; [apply bs_put_price_expired; exact HT |].
  rewrite !py_max_Rmax. unfold Rmax.
  destruct (Rle_dec 0 (S - K)), (Rle_dec 0 (K - S)); repeat split; nra.
Qed.

Lemma expiry_put_call_parity_witness :
  (0 <= 0) /\
  exists c p : R,
    BlackScholesModel.call_price (BlackScholesModel.mk 100 90 0 0.05 0.2) = Ok c /\
    BlackScholesModel.put_price (BlackScholesModel.mk 100 90 0 0.05 0.2) = Ok p /\
    c - p = 100 - 90 /\ 0 <= c /\ 0 <= p /\ c * p = 0.
Proof.
  split; [lra |].
  apply (expiry_put_call_parity 100 90 0 0.05 0.2). lra.
Defined.

(** ** Lowercasing *)

Lemma lower_ascii_idempotent (c : ascii) :
  lower_ascii (lower_ascii c) = lower_ascii c.
Proof. destruct c as [[] [] [] [] [] [] [] []]; reflexivity. Qed.

Lemma lower_idempotent (s : string) : lower (lower s) = lower s.
Proof.
  induction s as [| c s IH]; [reflexivity |].
  simpl. rewrite lower_ascii_idempotent, IH. reflexivity.
Qed.

(** X11. [price] and the Greeks read [option_type] only through its
    lowercased form: two strings that lowercase to the same string give the
    same price, and the same Greeks object. *)
Theorem side_is_read_lowercased
        (bs : BlackScholesModel.t) (S K T r sigma : R) (side side' : string) :
  lower side = lower side' ->
  BlackScholesModel.price bs side = BlackScholesModel.price bs side' /\
  BlackScholesModel.price bs (lower side) = BlackScholesModel.price bs side /\
  Greeks.__init__ S K T r sigma side = Greeks.__init__ S K T r sigma side' /\
  Greeks.__init__ S K T r sigma (lower side) = Greeks.__init__ S K T r sigma side.
Proof.
  intros H. unfold BlackScholesModel.price, Greeks.__init__.
  rewrite lower_idempotent, H. repeat split.
Qed.

Lemma side_is_read_lowercased_witness :
  lower "CaLL" = lower "call" /\
  BlackScholesModel.price (BlackScholesModel.mk 100 105 0.25 0.05 0.2) "CaLL"
  = BlackScholesModel.price (BlackScholesModel.mk 100 105 0.25 0.05 0.2) "call".
Proof.
  split; [reflexivity |].
  apply (side_is_read_lowercased (BlackScholesModel.mk 100 105 0.25 0.05 0.2)
           100 105 0.25 0.05 0.2 "CaLL" "call"). reflexivity.
Defined.

(** ** The volatility surface *)

Section SurfaceRows.

Variable brentq : VS.brentq_t.
Variables (S r : R) (side : string).

Local Abbreviation surface := (VS.calculate_volatility_surface brentq S r side).
Local Abbreviation row_of := (VS.surface_row_of brentq S r side).
Local Abbreviation solve :=
  (fun market_price strike : R =>
     VS.calculate_implied_volatility brentq market_price S strike VS.surface_T r
       side VS.default_initial_guess VS.default_max_iterations
       VS.default_tolerance).

Lemma surface_row_of_inv (row : VS.chain_row) (out : VS.surface_row) :
  row_of row = Ok (Some out) ->
  row = VS.mk_chain_row (Some (VS.row_strike out)) (Some (VS.row_market_price out)) /\
  0 < VS.row_market_price out /\
  VS.row_time_to_expiration out = VS.surface_T /\
  solve (VS.row_market_price out) (VS.row_strike out)
  = Ok (Some (VS.row_implied_volatility out)).
Proof.
  unfold VS.surface_row_of. destruct row as [[k |] [m |]];
    cbn [VS.strike VS.lastPrice]; try discriminate.
  destruct (Rltb 0 m) eqn:Hm; [| discriminate].
  destruct (VS.calculate_implied_volatility brentq m S k VS.surface_T r side
              VS.default_initial_guess VS.default_max_iterations
              VS.default_tolerance) as [[iv |] | e] eqn:E;
    cbn [bind]; try discriminate.
  intros H. injection H as <-.
  cbn [VS.row_strike VS.row_market_price VS.row_time_to_expiration
       VS.row_implied_volatility].
  split; [reflexivity |]. split; [apply Rltb_true_inv; exact Hm |].
  split; [reflexivity | exact E].
Qed.

Lemma surface_cons (row : VS.chain_row) (chain : list VS.chain_row) :
  surface (row :: chain)
  = match row_of row with
    | Ok (Some out) => out :: surface chain
    | Ok None => surface chain
    | Raise _ => surface chain
    end.
Proof. reflexivity. Qed.

Lemma surface_app (c1 c2 : list VS.chain_row) :
  surface (c1 ++ c2) = surface c1 ++ surface c2.
Proof.
  induction c1 as [| row c1 IH]; [reflexivity |].
  rewrite <- app_comm_cons, !surface_cons.
  destruct (row_of row) as [[out |] | e]; rewrite IH; reflexivity.
Qed.

Lemma surface_length (chain : list VS.chain_row) :
  (length (surface chain) <= length chain)%nat.
Proof.
  induction chain as [| row chain IH]; [apply Nat.le_refl |].
  rewrite surface_cons. cbn [length].
  destruct (row_of row) as [[out |] | e]; cbn [length]; lia.
Qed.

Lemma surface_in (chain : list VS.chain_row) (out : VS.surface_row) :
  In out (surface chain) ->
  exists row, In row chain /\ row_of row = Ok (Some out).
Proof.
  induction chain as [| row chain IH]; [intros [] |].
  rewrite surface_cons.
  destruct (row_of row) as [[o |] | e] eqn:E.
  - intros [-> | H].
    + exists row. split; [left; reflexivity | exact E].
    + destruct (IH H) as (row' & Hin & Hrow).
      exists row'. split; [right; exact Hin | exact Hrow].
  - intros H. destruct (IH H) as (row' & Hin & Hrow).
    exists row'. split; [right; exact Hin | exact Hrow].
  - intros H. destruct (IH H) as (row' & Hin & Hrow).
    exists row'. split; [right; exact Hin | exact Hrow].
Qed.

End SurfaceRows.

Lemma solver_some_above_floor
      (brentq : VS.brentq_t) (market_price S K T r : R) (option_type : string)
      (initial_guess : R) (max_iterations : Z) (tolerance x : R) :
  VS.calculate_implied_volatility brentq market_price S K T r option_type
    initial_guess max_iterations tolerance = Ok (Some x) ->
  VS.intrinsic_value S K option_type <= market_price.
Proof.
  rewrite calculate_implied_volatility_unfold.
  destruct (VS.rejected market_price S K T option_type) eqn:Hrej;
    [discriminate |].
  intros _.
  destruct (Rlt_dec market_price (VS.intrinsic_value S K option_type)) as [Hf | Hf];
    [| lra].
  rewrite (proj2 (rejected_true_iff market_price S K T option_type)) in Hrej;
    [discriminate | tauto].
Qed.

(** X16. [calculate_volatility_surface] treats the rows of the chain one by
    one, in order: the surface of two chains put end to end is the two
    surfaces put end to end, and it has no more rows than the chain.  Every
    row of the result comes from a chain row with a strike and a positive
    last price, carries the fixed expiry 30/365 and the volatility the
    solver returned for that strike and price, and its price is not below
    the solver's floor. *)
Theorem volatility_surface_rows
        (brentq : VS.brentq_t) (S r : R) (side : string)
        (chain : list VS.chain_row) :
  (forall c1 c2 : list VS.chain_row,
     VS.calculate_volatility_surface brentq S r side (c1 ++ c2)
     = VS.calculate_volatility_surface brentq S r side c1
       ++ VS.calculate_volatility_surface brentq S r side c2) /\
  (length (VS.calculate_volatility_surface brentq S r side chain)
   <= length chain)%nat /\
  (forall out : VS.surface_row,
     In out (VS.calculate_volatility_surface brentq S r side chain) ->
     In (VS.mk_chain_row (Some (VS.row_strike out))
           (Some (VS.row_market_price out))) chain /\
     0 < VS.row_market_price out /\
     VS.row_time_to_expiration out = 30 / 365 /\
     VS.calculate_implied_volatility brentq (VS.row_market_price out) S
       (VS.row_strike out) (30 / 365) r side 0.3 100 1e-6
     = Ok (Some (VS.row_implied_volatility out)) /\
     VS.intrinsic_value S (VS.row_strike out) side <= VS.row_market_price out).
Proof.
  split; [apply surface_app |]. split; [apply surface_length |].
  intros out Hin.
  destruct (surface_in brentq S r side chain out Hin) as (row & Hrow & Hout).
  destruct (surface_row_of_inv brentq S r side row out Hout)
    as (-> & Hpos & HT & Hiv).
  split; [exact Hrow |]. split; [exact Hpos |]. split; [exact HT |].
  split; [exact Hiv |].
  exact (solver_some_above_floor _ _ _ _ _ _ _ _ _ _ _ Hiv).
Qed.

Lemma rejected_atm_8_30d : VS.rejected 8 100 100 VS.surface_T "call" = false.
Proof.
  destruct (VS.rejected 8 100 100 VS.surface_T "call") eqn:E; [| reflexivity].
  apply rejected_true_iff in E.
  unfold VS.intrinsic_value, VS.surface_T in E; simpl in E.
  rewrite py_max_Rmax in E.
  unfold Rmax in E. destruct (Rle_dec 0 (100 - 100)); lra.
Qed.

Lemma surface_example :
  VS.calculate_volatility_surface brentq_lower_end 100 0 "call"
    [VS.mk_chain_row None (Some 1); VS.mk_chain_row (Some 100) (Some 8);
     VS.mk_chain_row (Some 100) (Some 0)]
  = [VS.mk_surface_row 100 0.001 VS.surface_T 8].
Proof.
  assert (H1 : VS.surface_row_of brentq_lower_end 100 0 "call"
                 (VS.mk_chain_row None (Some 1)) = Ok None) by reflexivity.
  assert (H2 : VS.surface_row_of brentq_lower_end 100 0 "call"
                 (VS.mk_chain_row (Some 100) (Some 8))
               = Ok (Some (VS.mk_surface_row 100 0.001 VS.surface_T 8))).
  { unfold VS.surface_row_of. cbn [VS.strike VS.lastPrice].
    rewrite (Rltb_true 0 8) by lra.
    rewrite calculate_implied_volatility_unfold, rejected_atm_8_30d.
    reflexivity. }
  assert (H3 : VS.surface_row_of brentq_lower_end 100 0 "call"
                 (VS.mk_chain_row (Some 100) (Some 0)) = Ok None).
  { unfold VS.surface_row_of. cbn [VS.strike VS.lastPrice].
    rewrite (Rltb_false 0 0) by lra. reflexivity. }
  rewrite !surface_cons, H1, H2, H3. reflexivity.
Qed.

Lemma volatility_surface_rows_witness :
  In (VS.mk_surface_row 100 0.001 VS.surface_T 8)
     (VS.calculate_volatility_surface brentq_lower_end 100 0 "call"
        [VS.mk_chain_row None (Some 1); VS.mk_chain_row (Some 100) (Some 8);
         VS.mk_chain_row (Some 100) (Some 0)]) /\
  VS.intrinsic_value 100 100 "call" <= 8.
Proof.
  assert (Hin : In (VS.mk_surface_row 100 0.001 VS.surface_T 8)
     (VS.calculate_volatility_surface brentq_lower_end 100 0 "call"
        [VS.mk_chain_row None (Some 1); VS.mk_chain_row (Some 100) (Some 8);
         VS.mk_chain_row (Some 100) (Some 0)])).
  { rewrite surface_example. left; reflexivity. }
  split; [exact Hin |].
  destruct (volatility_surface_rows brentq_lower_end 100 0 "call"
              [VS.mk_chain_row None (Some 1); VS.mk_chain_row (Some 100) (Some 8);
               VS.mk_chain_row (Some 100) (Some 0)]) as (_ & _ & H).
  destruct (H _ Hin) as (_ & _ & _ & _ & Hfloor). exact Hfloor.
Defined.

(** ** The routes of api/routes/options.py *)

Lemma calculate_implied_volatility_total
      (brentq : VS.brentq_t) (market_price S K T r : R) (option_type : string)
      (initial_guess : R) (max_iterations : Z) (tolerance : R) :
  exists v, VS.calculate_implied_volatility brentq market_price S K T r
              option_type initial_guess max_iterations tolerance = Ok v.
Proof.
  rewrite calculate_implied_volatility_unfold.
  destruct (VS.rejected _ _ _ _ _); [eexists; reflexivity |].
  apply root_search_total.
Qed.

Lemma solver_some_inv
      (brentq : VS.brentq_t) (market_price S K T r : R) (option_type : string)
      (initial_guess : R) (max_iterations : Z) (tolerance x : R) :
  VS.calculate_implied_volatility brentq market_price S K T r option_type
    initial_guess max_iterations tolerance = Ok (Some x) ->
  brentq (VS.objective market_price S K T r option_type) 0.001 5.0
    (VS.mk_kwargs max_iterations tolerance) = Ok x
  \/
  (raises (brentq (VS.objective market_price S K T r option_type) 0.001 5.0
             (VS.mk_kwargs max_iterations tolerance)) /\
   VS.newton_loop market_price S K T r option_type tolerance
     (Z.to_nat max_iterations) initial_guess = Ok (Some x)).
Proof.
  rewrite calculate_implied_volatility_unfold.
  destruct (VS.rejected _ _ _ _ _); [discriminate |].
  unfold VS.root_search, VS.brent_search.
  destruct (brentq _ _ _ _) as [x0 | e]; cbn [bind try_except]; intros H.
  - left. inversion H; reflexivity.
  - right. split; [eexists; reflexivity |].
    apply newton_raphson_some_inv. exact H.
Qed.

Lemma side_literal_lower (side : string) :
  side = "call"%string \/ side = "put"%string ->
  lower side = "call"%string \/ lower side = "put"%string.
Proof. intros [-> | ->]; [left | right]; reflexivity. Qed.



(** * The Newton-Raphson fallback, pass by pass *)

Section NewtonRun.

Variables (market_price S K T r : R) (option_type : string) (tolerance : R).

Local Abbreviation price_of :=
  (fun sigma : R =>
     BlackScholesModel.price (BlackScholesModel.mk S K T r sigma) option_type).
Local Abbreviation vega_of :=
  (fun sigma : R => Greeks.vega (Greeks.__init__ S K T r sigma option_type)).
Local Abbreviation step :=
  (VS.newton_step market_price S K T r option_type tolerance).
Local Abbreviation loop :=
  (VS.newton_loop market_price S K T r option_type tolerance).
Local Abbreviation pass :=
  (newton_pass market_price S K T r option_type tolerance).

Lemma newton_step_return (sigma p : R) :
  price_of sigma = Ok p -> Rabs (p - market_price) < tolerance ->
  step sigma = Ok (VS.Return sigma).
Proof.
  intros Hp Hc. unfold VS.newton_step. rewrite Hp. cbn [bind].
  rewrite (Rltb_true _ _ Hc). reflexivity.
Qed.

Lemma newton_step_break (sigma p v : R) :
  price_of sigma = Ok p -> ~ Rabs (p - market_price) < tolerance ->
  vega_of sigma = Ok v -> v * 100 < 1e-10 ->
  step sigma = Ok VS.Break.
Proof.
  intros Hp Hc Hv Hu. unfold VS.newton_step. rewrite Hp. cbn [bind].
  rewrite Rltb_false by lra. rewrite Hv. cbn [bind].
  rewrite (Rltb_true _ _ Hu). reflexivity.
Qed.

Lemma newton_step_pass (sigma p v sigma' : R) :
  pass sigma p v sigma' -> step sigma = Ok (VS.Continue sigma').
Proof.
  intros (Hp & Hc & Hv & Hu & ->). unfold VS.newton_step.
  rewrite Hp. cbn [bind]. rewrite Rltb_false by lra.
  rewrite Hv. cbn [bind]. rewrite Rltb_false by lra.
  rewrite py_div_ok by lra. cbn [bind].
  rewrite py_max_Rmax, py_min_Rmin. reflexivity.
Qed.

Lemma newton_step_price_raises (sigma : R) (e : exn) :
  price_of sigma = Raise e -> step sigma = Raise e.
Proof. intros Hp. unfold VS.newton_step. rewrite Hp. reflexivity. Qed.

Lemma newton_loop_succ (n : nat) (sigma : R) :
  loop (Datatypes.S n) sigma
  = (o <- step sigma ;;
     match o with
     | VS.Return s => Ok (Some s)
     | VS.Break => Ok None
     | VS.Continue s => loop n s
     end).
Proof. reflexivity. Qed.

(** [k] passes that take neither exit use up [k] turns of the loop. *)
Lemma newton_loop_run (k : nat) :
  forall (n : nat) (sigma p v : nat -> R),
    (forall j : nat, (j < k)%nat ->
       pass (sigma j) (p j) (v j) (sigma (Datatypes.S j))) ->
    loop (k + n) (sigma O) = loop n (sigma k).
Proof.
  induction k as [| k IH]; intros n sigma p v Hrun; [reflexivity |].
  change (Datatypes.S k + n)%nat with (Datatypes.S (k + n)).
  rewrite newton_loop_succ.
  rewrite (newton_step_pass _ _ _ _ (Hrun O ltac:(lia))). cbn [bind].
  apply (IH n (fun j => sigma (Datatypes.S j)) (fun j => p (Datatypes.S j))
           (fun j => v (Datatypes.S j))).
  intros j Hj. apply Hrun. lia.
Qed.

(** In such a pass the divisor is vega per unit of volatility. *)
Lemma newton_pass_vega (sigma p v sigma' : R) :
  pass sigma p v sigma' ->
  0 < T /\
  exists d1 : R,
    Greeks._d1 (Greeks.__init__ S K T r sigma option_type) = Ok d1 /\
    v * 100 = S * Normal.pdf d1 * sqrt T.
Proof.
  intros (_ & _ & Hv & Hu & _).
  unfold Greeks.vega, Greeks.__init__ in Hv. cbn [Greeks.T Greeks.S] in Hv.
  destruct (Rleb T 0) eqn:ET.
  - inversion Hv; subst. exfalso. apply Hu. lra.
  - apply Rleb_false_inv in ET.
    apply bind_ok_inv in Hv. destruct Hv as (d1 & Hd1 & Hv).
    rewrite math_sqrt_ok in Hv by lra. cbn [bind] in Hv.
    inversion Hv; subst. split; [exact ET |].
    exists d1. split; [exact Hd1 | lra].
Qed.

End NewtonRun.

Lemma pdf_bounds (x : R) :
  (1 - x * x / 2) / 3 <= Normal.pdf x < 1 / 2.
Proof.
  destruct sqrt_2PI_bounds as [Hs2 Hs3].
  unfold Normal.pdf. set (s := sqrt (2 * PI)) in *.
  set (y := - (x * x) / 2).
  assert (Hy : y <= 0) by (unfold y; nra).
  assert (He1 : 1 + y <= exp y) by apply exp_ineq1_le.
  assert (He2 : exp y <= 1).
  { destruct (Rle_lt_or_eq_dec y 0 Hy) as [Hlt | Heq].
    - left. rewrite <- exp_0. apply exp_increasing. exact Hlt.
    - rewrite Heq, exp_0. lra. }
  assert (He0 : 0 < exp y) by apply exp_pos.
  assert (Hinv3 : / 3 <= / s) by (apply Rinv_le_contravar; lra).
  assert (Hinv2 : / s < / 2) by (apply Rinv_lt_contravar; lra).
  assert (Hinv0 : 0 < / s) by (apply Rinv_0_lt_compat; lra).
  unfold Rdiv. split.
  - destruct (Rle_dec 0 (1 - x * x * / 2)) as [Hp | Hn].
    + apply Rle_trans with ((1 - x * x * / 2) * / s); [nra |].
      apply Rmult_le_compat_r; [lra |].
      assert (Hyv : y = - (x * x) * / 2) by reflexivity. lra.
    + apply Rle_trans with 0; [lra |].
      apply Rlt_le, Rmult_lt_0_compat; assumption.
  - apply Rle_lt_trans with (1 * / s); [| lra].
    apply Rmult_le_compat_r; lra.
Qed.

(** An at-the-money call with [T = 1], [r = 0]. *)
Lemma atm_d1_any (S sigma : R) :
  0 < S -> sigma <> 0 -> d1_formula S S 1 0 sigma = sigma / 2.
Proof.
  intros HS Hs. unfold d1_formula.
  replace (S / S) with 1 by (field; lra).
  rewrite ln_1, sqrt_1.
  replace 0.5 with (1 / 2) by lra. field. exact Hs.
Qed.

Lemma atm_call_price_any (S sigma : R) :
  0 < S -> sigma <> 0 ->
  model_price S S 1 0 "call" sigma = S * (2 * Normal.cdf (sigma / 2) - 1).
Proof.
  intros HS Hs. unfold model_price, d2_formula.
  change (String.eqb (lower "call") "call") with true. cbv beta zeta iota.
  rewrite atm_d1_any by assumption. rewrite sqrt_1.
  replace (sigma / 2 - sigma * 1) with (- (sigma / 2)) by lra.
  rewrite cdf_opp.
  replace (- (0 * 1)) with 0 by lra. rewrite exp_0. ring.
Qed.

Lemma atm_vega_bounds (S sigma : R) :
  0 < S -> sigma <> 0 ->
  S * ((1 - sigma * sigma / 8) / 3) <= vega_decimal S S 1 0 sigma < S * (1 / 2).
Proof.
  intros HS Hs. unfold vega_decimal.
  rewrite atm_d1_any by assumption. rewrite sqrt_1.
  destruct (pdf_bounds (sigma / 2)) as [Hlo Hhi].
  split; nra.
Qed.

(** The first pass of the fallback for an at-the-money call quoted at 60:
    the guess 0.3 is not within 40 of the price, and the update lands
    between 1.2 and 1.82. *)
Lemma atm_60_first_pass :
  let p0 := model_price 100 100 1 0 "call" 0.3 in
  let v0 := vega_decimal 100 100 1 0 0.3 / 100 in
  let s1 := Rmax 0.001 (Rmin (0.3 - (p0 - 60) / (v0 * 100)) 5.0) in
  newton_pass 60 100 100 1 0 "call" 40 0.3 p0 v0 s1 /\
  1.2 <= s1 <= 1.82.
Proof.
  intros p0 v0 s1.
  assert (Hr : 0 < 0.3 <= 2) by lra.
  destruct (atm_call_price_bounds 0.3 Hr) as [Hplo Hphi]. fold p0 in Hplo, Hphi.
  destruct (atm_vega_bounds 100 0.3 ltac:(lra) ltac:(lra)) as [Hvlo Hvhi].
  assert (Hv100 : v0 * 100 = vega_decimal 100 100 1 0 0.3) by (unfold v0; lra).
  set (vd := vega_decimal 100 100 1 0 0.3) in *.
  split.
  - unfold newton_pass. repeat split.
    + apply price_valid; try lra. left; reflexivity.
    + intros H. apply Rabs_def2 in H. lra.
    + apply vega_valid; lra.
    + rewrite Hv100. lra.
  - subst s1. rewrite Hv100.
    set (q := (p0 - 60) / vd).
    assert (Hq : q * vd = p0 - 60) by (unfold q; field; lra).
    assert (Hqb : -1.52 <= q <= -0.9) by (split; nra).
    assert (Hx : 1.2 <= 0.3 - q <= 1.82) by lra.
    rewrite Rmin_left by lra. rewrite Rmax_right by lra. exact Hx.
Qed.

Lemma atm_price_near_60 (sigma : R) :
  1.2 <= sigma <= 1.82 ->
  Rabs (model_price 100 100 1 0 "call" sigma - 60) < 40.
Proof.
  intros [Hlo Hhi].
  assert (Hr : 0 < sigma <= 2) by lra.
  destruct (atm_call_price_bounds sigma Hr) as [Hplo Hphi].
  assert (Hc : 0.86 <= 1 - sigma * sigma / 24) by nra.
  assert (Hl : 1.2 * 0.86 <= sigma * (1 - sigma * sigma / 24)) by nra.
  apply Rabs_def1; lra.
Qed.

(** C4.  The Newton-Raphson fallback starts at sigma_0 = [initial_guess]
    (default 0.3).  Let the first [k] passes of the loop take neither exit:
    at each sigma_j the price p_j is returned and is not within [tolerance]
    of the market price, the vega v_j is returned with v_j * 100 not below
    1e-10, and sigma_(j+1) is sigma_j - (p_j - market_price) / (v_j * 100)
    clamped into [0.001, 5.0].  Then the divisor v_j * 100 is vega per unit
    of volatility, S pdf(d1) sqrt(T); every new iterate lies in
    [0.001, 5.0]; with turns left, the fallback returns sigma_k if the
    price there is within [tolerance], [None] if it is not and
    vega * 100 < 1e-10, and [None] if the price raises; with all
    [max_iterations] turns used it returns [None].  This is the result of
    [calculate_implied_volatility] when the checks pass and [brentq]
    raises. *)
Theorem newton_fallback_run
        (market_price S K T r : R) (option_type : string)
        (initial_guess : R) (max_iterations : Z) (tolerance : R)
        (sigma p v : nat -> R) (k : nat) :
  sigma O = initial_guess ->
  (k <= Z.to_nat max_iterations)%nat ->
  (forall j : nat, (j < k)%nat ->
     newton_pass market_price S K T r option_type tolerance
       (sigma j) (p j) (v j) (sigma (Datatypes.S j))) ->
  let price_of := fun s : R =>
    BlackScholesModel.price (BlackScholesModel.mk S K T r s) option_type in
  let vega_of := fun s : R =>
    Greeks.vega (Greeks.__init__ S K T r s option_type) in
  let result := VS.newton_raphson market_price S K T r option_type
                  initial_guess max_iterations tolerance in
  VS.default_initial_guess = 0.3 /\
  (forall j : nat, (j < k)%nat ->
     0.001 <= sigma (Datatypes.S j) <= 5.0 /\
     exists d1 : R,
       Greeks._d1 (Greeks.__init__ S K T r (sigma j) option_type) = Ok d1 /\
       v j * 100 = S * Normal.pdf d1 * sqrt T) /\
  ((k < Z.to_nat max_iterations)%nat ->
   forall pk : R, price_of (sigma k) = Ok pk ->
     (Rabs (pk - market_price) < tolerance -> result = Ok (Some (sigma k))) /\
     (~ Rabs (pk - market_price) < tolerance ->
      forall vk : R, vega_of (sigma k) = Ok vk -> vk * 100 < 1e-10 ->
        result = Ok None)) /\
  ((k < Z.to_nat max_iterations)%nat -> raises (price_of (sigma k)) ->
   result = Ok None) /\
  (k = Z.to_nat max_iterations -> result = Ok None) /\
  (forall brentq : VS.brentq_t,
     VS.rejected market_price S K T option_type = false ->
     raises (brentq (VS.objective market_price S K T r option_type) 0.001 5.0
               (VS.mk_kwargs max_iterations tolerance)) ->
     VS.calculate_implied_volatility brentq market_price S K T r option_type
       initial_guess max_iterations tolerance = result).
Proof.
  intros H0 Hk Hrun price_of vega_of result.
  assert (Hloop : forall n : nat, Z.to_nat max_iterations = (k + n)%nat ->
            VS.newton_loop market_price S K T r option_type tolerance
              (Z.to_nat max_iterations) initial_guess
            = VS.newton_loop market_price S K T r option_type tolerance
                n (sigma k)).
  { intros n ->. rewrite <- H0.
    exact (newton_loop_run market_price S K T r option_type tolerance
             k n sigma p v Hrun). }
  assert (Hleft : (k < Z.to_nat max_iterations)%nat ->
            exists n : nat,
              VS.newton_loop market_price S K T r option_type tolerance
                (Z.to_nat max_iterations) initial_guess
              = (o <- VS.newton_step market_price S K T r option_type
                        tolerance (sigma k) ;;
                 match o with
                 | VS.Return s => Ok (Some s)
                 | VS.Break => Ok None
                 | VS.Continue s =>
                     VS.newton_loop market_price S K T r option_type
                       tolerance n s
                 end)).
  { intros Hlt. exists (Z.to_nat max_iterations - Datatypes.S k)%nat.
    rewrite (Hloop (Datatypes.S (Z.to_nat max_iterations - Datatypes.S k)))
      by lia.
    apply newton_loop_succ. }
  split; [reflexivity |].
  split.
  { intros j Hj. pose proof (Hrun j Hj) as Hpass. split.
    - destruct Hpass as (_ & _ & _ & _ & ->).
      split; [apply Rmax_l | apply Rmax_lub; [lra | apply Rmin_r]].
    - exact (proj2 (newton_pass_vega _ _ _ _ _ _ _ _ _ _ _ Hpass)). }
  subst result. unfold VS.newton_raphson.
  split; [| split; [| split]].
  - intros Hlt pk Hpk. destruct (Hleft Hlt) as [n ->]. split.
    + intros Hc.
      rewrite (newton_step_return market_price S K T r option_type tolerance
                 _ _ Hpk Hc).
      reflexivity.
    + intros Hc vk Hvk Hu.
      rewrite (newton_step_break market_price S K T r option_type tolerance
                 _ _ _ Hpk Hc Hvk Hu).
      reflexivity.
  - intros Hlt [e He]. destruct (Hleft Hlt) as [n ->].
    rewrite (newton_step_price_raises market_price S K T r option_type
               tolerance _ _ He).
    reflexivity.
  - intros Hend. rewrite (Hloop O) by lia. reflexivity.
  - intros brentq Hrej [e He].
    rewrite calculate_implied_volatility_unfold, Hrej.
    unfold VS.root_search, VS.brent_search. rewrite He. reflexivity.
Qed.

Lemma newton_fallback_run_witness :
  let p0 := model_price 100 100 1 0 "call" 0.3 in
  let v0 := vega_decimal 100 100 1 0 0.3 / 100 in
  let s1 := Rmax 0.001 (Rmin (0.3 - (p0 - 60) / (v0 * 100)) 5.0) in
  (newton_pass 60 100 100 1 0 "call" 40 0.3 p0 v0 s1 /\ 1.2 <= s1 <= 1.82) /\
  VS.newton_raphson 60 100 100 1 0 "call" 0.3 100 40 = Ok (Some s1) /\
  VS.newton_raphson 60 100 100 1 0 "call" 0.3 1 40 = Ok None /\
  VS.newton_raphson 1 1e-12 1e-12 1 0 "call" 0.3 100 1e-6 = Ok None.
Proof.
  intros p0 v0 s1.
  pose proof atm_60_first_pass as Hfirst. cbv zeta in Hfirst.
  fold p0 v0 s1 in Hfirst. destruct Hfirst as [Hpass Hs1].
  set (sigma := fun j : nat => match j with O => 0.3 | _ => s1 end).
  set (p := fun j : nat =>
              match j with
              | O => p0
              | _ => model_price 100 100 1 0 "call" s1
              end).
  set (v := fun _ : nat => v0).
  assert (Hrun : forall j : nat, (j < 1)%nat ->
            newton_pass 60 100 100 1 0 "call" 40
              (sigma j) (p j) (v j) (sigma (Datatypes.S j))).
  { intros j Hj. assert (j = O) by lia. subst j. exact Hpass. }
  assert (H100 : (1 <= Z.to_nat 100)%nat) by (vm_compute; lia).
  assert (H100' : (1 < Z.to_nat 100)%nat) by (vm_compute; lia).
  assert (H1 : (1 <= Z.to_nat 1)%nat) by (vm_compute; lia).
  split; [split; [exact Hpass | exact Hs1] |].
  split; [| split].
  - destruct (newton_fallback_run 60 100 100 1 0 "call" 0.3 100 40
                sigma p v 1 eq_refl H100 Hrun) as (_ & _ & Hret & _).
    destruct (Hret H100' (model_price 100 100 1 0 "call" s1)) as [Hconv _].
    + apply price_valid; try lra. left; reflexivity.
    + apply Hconv. apply atm_price_near_60. exact Hs1.
  - destruct (newton_fallback_run 60 100 100 1 0 "call" 0.3 1 40
                sigma p v 1 eq_refl H1 Hrun) as (_ & _ & _ & _ & Hend & _).
    apply Hend. reflexivity.
  - assert (H0 : (0 <= Z.to_nat 100)%nat) by lia.
    assert (H0' : (0 < Z.to_nat 100)%nat) by (vm_compute; lia).
    destruct (newton_fallback_run 1 1e-12 1e-12 1 0 "call" 0.3 100 1e-6
                (fun _ => 0.3) (fun _ => 0) (fun _ => 0) 0 eq_refl H0
                ltac:(intros j Hj; lia)) as (_ & _ & Hret & _).
    destruct (Hret H0' (model_price 1e-12 1e-12 1 0 "call" 0.3)) as [_ Hbreak].
    + apply price_valid; try lra. left; reflexivity.
    + apply (Hbreak ltac:(
        rewrite atm_call_price_any by lra;
        pose proof (cdf_small_bounds (0.3 / 2) ltac:(lra) ltac:(lra)) as [Hlo Hhi];
        intros H; apply Rabs_def2 in H; nra)
        (vega_decimal 1e-12 1e-12 1 0 0.3 / 100)).
      * apply vega_valid; lra.
      * destruct (atm_vega_bounds 1e-12 0.3 ltac:(lra) ltac:(lra)) as [_ Hhi].
        lra.
Defined.

(** * The floor test and the side *)

Lemma greeks_init_lower (S K T r sigma : R) (option_type side : string) :
  lower option_type = lower side ->
  Greeks.__init__ S K T r sigma option_type
  = Greeks.__init__ S K T r sigma side.
Proof. intros H. unfold Greeks.__init__. rewrite H. reflexivity. Qed.

Lemma price_lower (S K T r sigma : R) (option_type side : string) :
  lower option_type = lower side ->
  BlackScholesModel.price (BlackScholesModel.mk S K T r sigma) option_type
  = BlackScholesModel.price (BlackScholesModel.mk S K T r sigma) side.
Proof. intros H. unfold BlackScholesModel.price. rewrite H. reflexivity. Qed.

(** The fallback reads the side only through [price] and [Greeks]. *)
Lemma newton_loop_lower (market_price S K T r : R) (option_type side : string)
      (tolerance : R) (n : nat) :
  lower option_type = lower side ->
  forall sigma : R,
    VS.newton_loop market_price S K T r option_type tolerance n sigma
    = VS.newton_loop market_price S K T r side tolerance n sigma.
Proof.
  intros H. induction n as [| n IH]; intros sigma; [reflexivity |].
  rewrite !newton_loop_succ.
  assert (Hstep : VS.newton_step market_price S K T r option_type tolerance sigma
                  = VS.newton_step market_price S K T r side tolerance sigma).
  { unfold VS.newton_step.
    rewrite (price_lower S K T r sigma option_type side H).
    rewrite (greeks_init_lower S K T r sigma option_type side H).
    reflexivity. }
  rewrite Hstep.
  destruct (VS.newton_step market_price S K T r side tolerance sigma)
    as [[s | | s] | e]; cbn [bind]; try reflexivity.
  apply IH.
Qed.

(** C9.  The floor test compares [option_type] with "call" exactly, while
    [price] and [Greeks] lowercase it.  For a string that is a call only
    after lowercasing (such as "Call" or "CALL") the floor is the put floor
    [max(0, K - S)], while the objective and the fallback price a call.  So
    the solver returns [None] without searching exactly when [T <= 0],
    [market_price <= 0] or [market_price < max(0, K - S)], and otherwise
    runs the root search; with [S > K] and [0 < market_price < S - K] the
    checks pass and the root search runs, where the same inputs with
    "call" are turned away. *)
Theorem mixed_case_call_uses_put_floor
        (brentq : VS.brentq_t) (market_price S K T r : R) (option_type : string)
        (initial_guess : R) (max_iterations : Z) (tolerance : R) :
  option_type <> "call"%string ->
  lower option_type = "call"%string ->
  let solve := fun side : string =>
    VS.calculate_implied_volatility brentq market_price S K T r side
      initial_guess max_iterations tolerance in
  let search :=
    VS.root_search brentq market_price S K T r option_type
      initial_guess max_iterations tolerance in
  VS.intrinsic_value S K option_type = Rmax 0 (K - S) /\
  (forall sigma,
     BlackScholesModel.price (BlackScholesModel.mk S K T r sigma) option_type
     = BlackScholesModel.call_price (BlackScholesModel.mk S K T r sigma)) /\
  (forall sigma,
     VS.objective market_price S K T r option_type sigma
     = match BlackScholesModel.call_price (BlackScholesModel.mk S K T r sigma) with
       | Ok model_price => VS.Finite (model_price - market_price)
       | Raise _ => VS.PlusInf
       end) /\
  (forall sigma,
     VS.objective market_price S K T r option_type sigma
     = VS.objective market_price S K T r "call" sigma) /\
  VS.newton_raphson market_price S K T r option_type
    initial_guess max_iterations tolerance
  = VS.newton_raphson market_price S K T r "call"
      initial_guess max_iterations tolerance /\
  (T <= 0 \/ market_price <= 0 \/ market_price < Rmax 0 (K - S) ->
   solve option_type = Ok None) /\
  (0 < T -> 0 < market_price -> Rmax 0 (K - S) <= market_price ->
   VS.rejected market_price S K T option_type = false /\
   solve option_type = search) /\
  (K < S -> 0 < market_price < S - K ->
   Rltb market_price (VS.intrinsic_value S K option_type) = false /\
   Rltb market_price (VS.intrinsic_value S K "call") = true) /\
  (0 < T -> K < S -> 0 < market_price < S - K ->
   VS.rejected market_price S K T option_type = false /\
   solve option_type = search /\
   solve "call"%string = Ok None).
Proof.
  intros Hne Hlow solve search.
  assert (Hfloor : VS.intrinsic_value S K option_type = Rmax 0 (K - S)).
  { unfold VS.intrinsic_value. apply String.eqb_neq in Hne. rewrite Hne.
    apply py_max_Rmax. }
  assert (Hcall : VS.intrinsic_value S K "call" = Rmax 0 (S - K)).
  { unfold VS.intrinsic_value.
    change (String.eqb "call" "call") with true. apply py_max_Rmax. }
  assert (Hprice : forall sigma,
     BlackScholesModel.price (BlackScholesModel.mk S K T r sigma) option_type
     = BlackScholesModel.call_price (BlackScholesModel.mk S K T r sigma)).
  { intros sigma. unfold BlackScholesModel.price. rewrite Hlow. reflexivity. }
  assert (Hside : lower option_type = lower "call") by (rewrite Hlow; reflexivity).
  assert (Hrej : T <= 0 \/ market_price <= 0 \/ market_price < Rmax 0 (K - S) ->
            VS.rejected market_price S K T option_type = true).
  { intros H. apply rejected_true_iff. rewrite Hfloor. exact H. }
  assert (Hacc : 0 < T -> 0 < market_price -> Rmax 0 (K - S) <= market_price ->
            VS.rejected market_price S K T option_type = false).
  { intros HT Hm Hf.
    destruct (VS.rejected market_price S K T option_type) eqn:E; [| reflexivity].
    apply rejected_true_iff in E. rewrite Hfloor in E. lra. }
  assert (Hput0 : K < S -> Rmax 0 (K - S) = 0).
  { intros HKS. apply Rmax_left. lra. }
  assert (Hcall0 : K < S -> Rmax 0 (S - K) = S - K).
  { intros HKS. apply Rmax_right. lra. }
  split; [exact Hfloor |]. split; [exact Hprice |].
  split; [intros sigma; unfold VS.objective; rewrite Hprice; reflexivity |].
  split.
  { intros sigma. unfold VS.objective.
    rewrite (price_lower S K T r sigma option_type "call" Hside). reflexivity. }
  split.
  { unfold VS.newton_raphson.
    rewrite (newton_loop_lower market_price S K T r option_type "call"
               tolerance _ Hside).
    reflexivity. }
  split.
  { intros H. unfold solve.
    rewrite calculate_implied_volatility_unfold, (Hrej H). reflexivity. }
  split.
  { intros HT Hm Hf. split; [exact (Hacc HT Hm Hf) |].
    unfold solve. rewrite calculate_implied_volatility_unfold, (Hacc HT Hm Hf).
    reflexivity. }
  split.
  { intros HKS [Hm0 Hm1]. split.
    - apply Rltb_false. rewrite Hfloor, (Hput0 HKS). lra.
    - apply Rltb_true. rewrite Hcall, (Hcall0 HKS). exact Hm1. }
  intros HT HKS [Hm0 Hm1].
  assert (Hf : Rmax 0 (K - S) <= market_price) by (rewrite (Hput0 HKS); lra).
  split; [exact (Hacc HT Hm0 Hf) |]. split.
  - unfold solve. rewrite calculate_implied_volatility_unfold, (Hacc HT Hm0 Hf).
    reflexivity.
  - unfold solve. rewrite calculate_implied_volatility_unfold.
    assert (E : VS.rejected market_price S K T "call" = true).
    { apply rejected_true_iff. right; right.
      rewrite Hcall, (Hcall0 HKS). exact Hm1. }
    rewrite E. reflexivity.
Qed.

Lemma mixed_case_call_uses_put_floor_witness :
  ("Call"%string <> "call"%string /\ lower "Call" = "call"%string /\
   0 < 0.25 /\ 50 < 100 /\ 0 < 1 < 100 - 50 /\ 1 < Rmax 0 (100 - 50)) /\
  VS.calculate_implied_volatility brentq_lower_end 1 100 50 0.25 0.05 "Call"
    VS.default_initial_guess VS.default_max_iterations VS.default_tolerance
  = Ok (Some 0.001) /\
  VS.calculate_implied_volatility brentq_lower_end 1 100 50 0.25 0.05 "call"
    VS.default_initial_guess VS.default_max_iterations VS.default_tolerance
  = Ok None /\
  VS.calculate_implied_volatility brentq_lower_end 1 50 100 0.25 0.05 "Call"
    VS.default_initial_guess VS.default_max_iterations VS.default_tolerance
  = Ok None.
Proof.
  assert (Hne : "Call"%string <> "call"%string) by discriminate.
  assert (Hlow : lower "Call" = "call"%string) by reflexivity.
  assert (Hbelow : 1 < Rmax 0 (100 - 50)) by (rewrite Rmax_right; lra).
  split; [repeat split; try lra; assumption |].
  destruct (mixed_case_call_uses_put_floor brentq_lower_end 1 100 50 0.25 0.05
              "Call" VS.default_initial_guess VS.default_max_iterations
              VS.default_tolerance Hne Hlow) as (_ & _ & _ & _ & _ & _ & _ & _ & Hrun).
  destruct Hrun as (_ & Hrun & Hlit); try lra.
  destruct (mixed_case_call_uses_put_floor brentq_lower_end 1 50 100 0.25 0.05
              "Call" VS.default_initial_guess VS.default_max_iterations
              VS.default_tolerance Hne Hlow) as (_ & _ & _ & _ & _ & Hturn & _).
  split; [| split].
  - rewrite Hrun. reflexivity.
  - exact Hlit.
  - apply Hturn. right; right. exact Hbelow.
Defined.

(** * Zero volatility and the two deltas *)

(** X5.  Before expiration a volatility of zero never yields a value.
    [_d1] raises, with [ZeroDivisionError] or the domain error of
    [math.log], and with [ZeroDivisionError] whenever the logarithm of
    [S / K] is computed; both prices, every Greek and [all_greeks] raise the
    same exception; in the solver the objective is [inf] at 0 and the
    fallback started at [initial_guess = 0] returns [None]. *)
Theorem zero_volatility_is_an_error
        (market_price S K T r : R) (option_type : string)
        (max_iterations : Z) (tolerance : R) :
  0 < T ->
  let bs := BlackScholesModel.mk S K T r 0 in
  let g := Greeks.__init__ S K T r 0 option_type in
  (exists e : exn,
     (e = ZeroDivisionError \/ e = math_domain_error) /\
     (forall l : R, (q <- py_div S K ;; math_log q) = Ok l ->
        e = ZeroDivisionError) /\
     BlackScholesModel._d1 bs = Raise e /\
     BlackScholesModel.call_price bs = Raise e /\
     BlackScholesModel.put_price bs = Raise e /\
     Greeks.delta g = Raise e /\
     Greeks.gamma g = Raise e /\
     Greeks.theta g = Raise e /\
     Greeks.vega g = Raise e /\
     Greeks.rho g = Raise e /\
     Greeks.all_greeks g = Raise e) /\
  VS.objective market_price S K T r option_type 0 = VS.PlusInf /\
  VS.newton_raphson market_price S K T r option_type 0 max_iterations tolerance
  = Ok None.
Proof.
  intros HT bs g.
  assert (Hd1 : exists e : exn,
            (e = ZeroDivisionError \/ e = math_domain_error) /\
            (forall l : R, (q <- py_div S K ;; math_log q) = Ok l ->
               e = ZeroDivisionError) /\
            BlackScholesModel._d1 bs = Raise e).
  { destruct (Req_dec_T K 0) as [HK | HK].
    - exists ZeroDivisionError. split; [left; reflexivity |].
      split; [intros; reflexivity |].
      apply bs_d1_zero_strike; assumption.
    - destruct (Rle_dec (S / K) 0) as [Hq | Hq].
      + exists math_domain_error. split; [right; reflexivity |]. split.
        * intros l H. rewrite (py_div_ok S K HK) in H. cbn [bind] in H.
          unfold math_log in H.
          destruct (Rle_dec (S / K) 0); [discriminate | contradiction].
        * apply bs_d1_log_domain; assumption.
      + exists ZeroDivisionError. split; [left; reflexivity |].
        split; [intros; reflexivity |].
        apply bs_d1_zero_volatility; [exact HT | exact HK | lra | reflexivity]. }
  destruct Hd1 as (e & Hkind & Hlog & Hd1).
  destruct (prices_raise_with_d1 S K T r 0 HT _ Hd1) as [Hc Hp].
  destruct (price_raise_any_side S K T r 0 option_type _ Hc Hp) as [e' He'].
  split.
  - exists e. split; [exact Hkind |]. split; [exact Hlog |].
    split; [exact Hd1 |]. split; [exact Hc |]. split; [exact Hp |].
    apply greeks_raise_with_d1; [exact HT | exact Hd1].
  - split.
    + exact (objective_of_raise market_price S K T r option_type 0 e' He').
    + exact (newton_raphson_of_raise market_price S K T r option_type 0
               max_iterations tolerance e' He').
Qed.

Lemma zero_volatility_is_an_error_witness :
  0 < 0.25 /\
  Greeks.all_greeks (Greeks.__init__ 100 105 0.25 0.05 0 "put")
  = Raise ZeroDivisionError /\
  VS.newton_raphson 8 100 105 0.25 0.05 "put" 0 100 1e-6 = Ok None.
Proof.
  assert (HT : 0 < 0.25) by lra.
  split; [exact HT |].
  destruct (zero_volatility_is_an_error 8 100 105 0.25 0.05 "put" 100 1e-6 HT)
    as ((e & _ & Hlog & _ & _ & _ & _ & _ & _ & _ & _ & Hall) & _ & Hnewton).
  split; [| exact Hnewton].
  rewrite Hall. f_equal.
  apply (Hlog (ln (100 / 105))).
  rewrite py_div_ok by lra. cbn [bind].
  apply math_log_ok. lra.
Defined.

(** X7.  Before expiration the put delta is the call delta minus 1: if the
    call delta is returned as c, the put delta is returned as c - 1, and if
    one raises, the other raises the same exception.  At or past expiration
    both are returned; they differ by 1 when [S <> K], and at the money
    both are 0. *)
Theorem delta_call_put_gap (S K T r sigma : R) :
  let call := Greeks.__init__ S K T r sigma "call" in
  let put := Greeks.__init__ S K T r sigma "put" in
  (0 < T ->
   (forall c : R, Greeks.delta call = Ok c -> Greeks.delta put = Ok (c - 1)) /\
   (forall p : R, Greeks.delta put = Ok p ->
      exists c : R, Greeks.delta call = Ok c /\ p = c - 1) /\
   (forall e : exn, Greeks.delta call = Raise e <-> Greeks.delta put = Raise e)) /\
  (T <= 0 ->
   exists c p : R,
     Greeks.delta call = Ok c /\ Greeks.delta put = Ok p /\
     (S <> K -> c - p = 1) /\ (S = K -> c = 0 /\ p = 0)).
Proof.
  intros call put. split.
  - intros HT.
    assert (Hc : Greeks.delta call
                 = (d1 <- BlackScholesModel._d1 (BlackScholesModel.mk S K T r sigma) ;;
                    Ok (Normal.cdf d1))).
    { unfold Greeks.delta, call, Greeks.__init__, Greeks.is_call.
      cbn [Greeks.T Greeks.option_type].
      rewrite (Rleb_false T 0 HT). reflexivity. }
    assert (Hp : Greeks.delta put
                 = (d1 <- BlackScholesModel._d1 (BlackScholesModel.mk S K T r sigma) ;;
                    Ok (Normal.cdf d1 - 1))).
    { unfold Greeks.delta, put, Greeks.__init__, Greeks.is_call.
      cbn [Greeks.T Greeks.option_type].
      rewrite (Rleb_false T 0 HT). reflexivity. }
    rewrite Hc, Hp.
    destruct (BlackScholesModel._d1 (BlackScholesModel.mk S K T r sigma))
      as [d1 | e0]; cbn [bind].
    + split; [| split].
      * intros c H. inversion H. reflexivity.
      * intros p H. inversion H. exists (Normal.cdf d1). split; reflexivity.
      * intros e. split; intros H; discriminate H.
    + split; [| split].
      * intros c H. discriminate H.
      * intros p H. discriminate H.
      * intros e. tauto.
  - intros HT. unfold Greeks.delta, Greeks.is_call; simpl.
    rewrite (Rleb_true T 0 HT). eexists; eexists.
    split; [reflexivity |]. split; [reflexivity |].
    unfold Rltb. destruct (Rlt_dec K S), (Rlt_dec S K); split; intros; lra.
Qed.

Lemma delta_call_put_gap_witness :
  (0 < 1 /\
   Greeks.delta (Greeks.__init__ 100 100 1 0 0.3 "call")
   = Ok (Normal.cdf (0.3 / 2))) /\
  Greeks.delta (Greeks.__init__ 100 100 1 0 0.3 "put")
  = Ok (Normal.cdf (0.3 / 2) - 1).
Proof.
  assert (HT : 0 < 1) by lra.
  assert (Hc : Greeks.delta (Greeks.__init__ 100 100 1 0 0.3 "call")
               = Ok (Normal.cdf (0.3 / 2))).
  { rewrite greeks_delta_valid by lra.
    change (String.eqb (lower "call") "call") with true. cbv iota.
    rewrite atm_d1 by lra. reflexivity. }
  split; [split; [exact HT | exact Hc] |].
  destruct (delta_call_put_gap 100 100 1 0 0.3) as [Hgap _].
  destruct (Hgap HT) as [Hval _].
  exact (Hval _ Hc).
Defined.

(** * The pricing engine over binary64 *)

Module Binary64Facts.

Import PrimFloat.
Local Open Scope float_scope.
#[local] Set Warnings "-inexact-float".

Module B := Binary64.

(** ** Order on floats *)

Lemma Prim2SF_zero : FloatOps.Prim2SF 0 = SpecFloat.S754_zero false.
Proof. reflexivity. Qed.

Lemma positive_not_le_zero (x : float) : (0 <? x) = true -> (x <=? 0) = false.
Proof.
  rewrite FloatAxioms.ltb_spec, FloatAxioms.leb_spec, Prim2SF_zero.
  unfold SpecFloat.SFltb, SpecFloat.SFleb.
  destruct (FloatOps.Prim2SF x) as [s | s | | s m e]; simpl;
    try discriminate; destruct s; simpl; try discriminate; reflexivity.
Qed.

Lemma positive_not_lt_zero (x : float) : (0 <? x) = true -> (x <? 0) = false.
Proof.
  rewrite !FloatAxioms.ltb_spec, Prim2SF_zero.
  unfold SpecFloat.SFltb.
  destruct (FloatOps.Prim2SF x) as [s | s | | s m e]; simpl;
    try discriminate; destruct s; simpl; try discriminate; reflexivity.
Qed.

Lemma positive_not_zero (x : float) : (0 <? x) = true -> (x =? 0) = false.
Proof.
  rewrite FloatAxioms.ltb_spec, FloatAxioms.eqb_spec, Prim2SF_zero.
  unfold SpecFloat.SFltb, SpecFloat.SFeqb.
  destruct (FloatOps.Prim2SF x) as [s | s | | s m e]; simpl;
    try discriminate; destruct s; simpl; try discriminate; reflexivity.
Qed.

(** ** Which exceptions the arithmetic raises *)

Lemma raises_only_ok {A : Type} (P : exn -> Prop) (a : A) : raises_only P (Ok a).
Proof. intros e H; discriminate. Qed.

Lemma raises_only_raise {A : Type} (P : exn -> Prop) (e : exn) :
  P e -> raises_only P (@Raise A e).
Proof. intros H e' E. inversion E; subst. exact H. Qed.

Lemma raises_only_bind {A C : Type} (P : exn -> Prop)
      (m : result A) (k : A -> result C) :
  raises_only P m -> (forall a, raises_only P (k a)) ->
  raises_only P (bind m k).
Proof.
  intros Hm Hk e. destruct m as [a | e']; simpl.
  - apply Hk.
  - intros H. inversion H; subst. apply Hm. reflexivity.
Qed.

Lemma raises_only_if {A : Type} (P : exn -> Prop) (b : bool) (m1 m2 : result A) :
  raises_only P m1 -> raises_only P m2 -> raises_only P (if b then m1 else m2).
Proof. destruct b; auto. Qed.

Ltac arithmetic :=
  repeat first
    [ apply raises_only_ok
    | apply raises_only_raise; unfold arithmetic_exn; tauto
    | apply raises_only_if
    | apply raises_only_bind; [| intros ?] ].

Section Libm.

Variables (libm_log libm_exp : float -> float).
Variable libm_pow : float -> float -> float.
Variable norm_cdf : float -> float.

Local Abbreviation d1_of := (B._d1 libm_log libm_pow).
Local Abbreviation d2_of := (B._d2 libm_log libm_pow).
Local Abbreviation call_of := (B.call_price libm_log libm_exp libm_pow norm_cdf).
Local Abbreviation put_of := (B.put_price libm_log libm_exp libm_pow norm_cdf).
Local Abbreviation price_of := (B.price libm_log libm_exp libm_pow norm_cdf).

Lemma d1_arithmetic (bs : B.t) : raises_only arithmetic_exn (d1_of bs).
Proof.
  unfold B._d1, B.float_div, B.math_log, B.float_pow, B.math_sqrt.
  arithmetic.
Qed.

Lemma d2_arithmetic (bs : B.t) : raises_only arithmetic_exn (d2_of bs).
Proof.
  unfold B._d2, B.math_sqrt.
  apply raises_only_if; [arithmetic |].
  apply raises_only_bind; [apply d1_arithmetic | intros ?]. arithmetic.
Qed.

Lemma call_arithmetic (bs : B.t) : raises_only arithmetic_exn (call_of bs).
Proof.
  unfold B.call_price, B.math_exp.
  apply raises_only_if; [arithmetic |].
  apply raises_only_bind; [apply d1_arithmetic | intros ?].
  apply raises_only_bind; [apply d2_arithmetic | intros ?]. arithmetic.
Qed.

Lemma put_arithmetic (bs : B.t) : raises_only arithmetic_exn (put_of bs).
Proof.
  unfold B.put_price, B.math_exp.
  apply raises_only_if; [arithmetic |].
  apply raises_only_bind; [apply d1_arithmetic | intros ?].
  apply raises_only_bind; [apply d2_arithmetic | intros ?]. arithmetic.
Qed.

Lemma invalid_option_type_not_arithmetic :
  ~ arithmetic_exn BlackScholesModel.invalid_option_type.
Proof. intros [H | [H | [H | H]]]; discriminate H. Qed.

(** ** The outcomes of [_d1], [_d2] and the prices before expiration *)

Section BeforeExpiration.

Variables S K T r sigma : float.
Hypothesis HT : (0 <? T) = true.

Local Abbreviation bs := (B.mk S K T r sigma).

Lemma d1_unfold :
  d1_of bs
  = (q <- B.float_div S K ;;
     l <- B.math_log libm_log q ;;
     p <- B.float_pow libm_pow sigma 2 ;;
     B.float_div (l + (r + 0.5 * p) * T) (sigma * sqrt T)).
Proof.
  unfold B._d1; cbn [B.T B.S B.K B.r B.sigma].
  rewrite (positive_not_le_zero T HT).
  unfold B.math_sqrt. rewrite (positive_not_lt_zero T HT).
  destruct (B.float_div S K) as [q |]; cbn [bind]; [| reflexivity].
  destruct (B.math_log libm_log q) as [l |]; cbn [bind]; [| reflexivity].
  destruct (B.float_pow libm_pow sigma 2) as [p |]; cbn [bind]; reflexivity.
Qed.

Lemma d2_unfold :
  d2_of bs = (d1 <- d1_of bs ;; Ok (d1 - sigma * sqrt T)).
Proof.
  unfold B._d2; cbn [B.T B.sigma].
  rewrite (positive_not_le_zero T HT).
  unfold B.math_sqrt. rewrite (positive_not_lt_zero T HT).
  destruct (d1_of bs); reflexivity.
Qed.

Lemma call_unfold :
  call_of bs
  = (d1 <- d1_of bs ;;
     e <- B.math_exp libm_exp (- r * T) ;;
     Ok (S * norm_cdf d1 - K * e * norm_cdf (d1 - sigma * sqrt T))).
Proof.
  unfold B.call_price. rewrite d2_unfold. cbn [B.T B.S B.K B.r B.sigma].
  rewrite (positive_not_le_zero T HT).
  destruct (d1_of bs); reflexivity.
Qed.

Lemma put_unfold :
  put_of bs
  = (d1 <- d1_of bs ;;
     e <- B.math_exp libm_exp (- r * T) ;;
     Ok (K * e * norm_cdf (- (d1 - sigma * sqrt T)) - S * norm_cdf (- d1))).
Proof.
  unfold B.put_price. rewrite d2_unfold. cbn [B.T B.S B.K B.r B.sigma].
  rewrite (positive_not_le_zero T HT).
  destruct (d1_of bs); reflexivity.
Qed.

Lemma d1_returns :
  (K =? 0) = false -> (S / K <=? 0) = false ->
  (is_infinity (libm_pow sigma 2) && is_finite sigma)%bool = false ->
  (sigma * sqrt T =? 0) = false ->
  d1_of bs
  = Ok ((libm_log (S / K) + (r + 0.5 * libm_pow sigma 2) * T)
        / (sigma * sqrt T)).
Proof.
  intros HK Hq Hp Hden. rewrite d1_unfold.
  unfold B.float_div, B.math_log, B.float_pow.
  rewrite HK; cbn [bind]. rewrite Hq; cbn [bind]. rewrite Hp; cbn [bind].
  rewrite Hden. reflexivity.
Qed.

End BeforeExpiration.

Lemma exp_returns (x : float) :
  is_infinity (libm_exp x) = false ->
  B.math_exp libm_exp x = Ok (libm_exp x).
Proof. intros H. unfold B.math_exp. rewrite H. reflexivity. Qed.

Lemma pow_returns (x : float) :
  is_infinity (libm_pow x 2) = false ->
  (is_infinity (libm_pow x 2) && is_finite x)%bool = false.
Proof. intros H. rewrite H. reflexivity. Qed.


(** C6, amended.  [price] raises the invalid-option-type error exactly when
    [option_type] designates neither a call nor a put.  For a valid side it
    is [call_price], respectively [put_price], and raises nothing but
    [ZeroDivisionError], the domain error of [math.log] and the two
    overflow errors.  Both prices are values for [T <= 0], and for [T > 0]
    provided that [K] is not zero, [S / K] is positive in binary64,
    [sigma * sqrt(T)] is not zero and neither [sigma ** 2] nor [exp(-r T)]
    overflows. *)
Theorem price_dispatch_binary64 (bs : B.t) (option_type : string) :
  (price_of bs option_type = Raise BlackScholesModel.invalid_option_type
   <-> lower option_type <> "call"%string /\ lower option_type <> "put"%string)
  /\
  (lower option_type = "call"%string -> price_of bs option_type = call_of bs) /\
  (lower option_type = "put"%string -> price_of bs option_type = put_of bs) /\
  (lower option_type = "call"%string \/ lower option_type = "put"%string ->
   forall e : exn, price_of bs option_type = Raise e -> arithmetic_exn e) /\
  ((B.T bs <=? 0) = true ->
   call_of bs = Ok (B.py_max0 (B.S bs - B.K bs)) /\
   put_of bs = Ok (B.py_max0 (B.K bs - B.S bs))) /\
  ((0 <? B.T bs) = true ->
   (B.K bs =? 0) = false ->
   (0 <? B.S bs / B.K bs) = true ->
   (B.sigma bs * sqrt (B.T bs) =? 0) = false ->
   is_infinity (libm_pow (B.sigma bs) 2) = false ->
   is_infinity (libm_exp (- B.r bs * B.T bs)) = false ->
   exists c p : float, call_of bs = Ok c /\ put_of bs = Ok p).
Proof.
  split; [| split; [| split; [| split; [| split]]]].
  - unfold B.price.
    destruct (String.eqb_spec (lower option_type) "call") as [Ec | Ec].
    + split.
      * intros H. apply call_arithmetic in H.
        exfalso. exact (invalid_option_type_not_arithmetic H).
      * intros [H _]. contradiction.
    + destruct (String.eqb_spec (lower option_type) "put") as [Ep | Ep].
      * split.
        -- intros H. apply put_arithmetic in H.
           exfalso. exact (invalid_option_type_not_arithmetic H).
        -- intros [_ H]. contradiction.
      * split; [intros _; split; assumption | reflexivity].
  - intros E. unfold B.price. rewrite E. reflexivity.
  - intros E. unfold B.price. rewrite E. reflexivity.
  - intros [E | E] e; unfold B.price; rewrite E.
    + apply call_arithmetic.
    + apply put_arithmetic.
  - intros HT. unfold B.call_price, B.put_price. rewrite HT. split; reflexivity.
  - destruct bs as [S K T r sigma]; cbn [B.T B.S B.K B.r B.sigma].
    intros HT HK Hq Hden Hpow Hexp.
    rewrite (call_unfold S K T r sigma HT), (put_unfold S K T r sigma HT).
    rewrite (d1_returns S K T r sigma HT HK
               (positive_not_le_zero _ Hq) (pow_returns _ Hpow) Hden).
    cbn [bind]. rewrite (exp_returns _ Hexp). cbn [bind].
    eexists; eexists; split; reflexivity.
Qed.

(** X4.  Before expiration, in binary64, [call_price] and [put_price] raise
    the same exceptions on the same inputs, by the first of these tests
    that fires: [K == 0] gives [ZeroDivisionError]; [S / K <= 0], which
    includes a ratio that underflows to 0.0, gives the domain error of
    [math.log]; an overflow of [sigma ** 2] gives [OverflowError];
    [sigma * sqrt(T) == 0], which includes [sigma = 0] and underflow, gives
    [ZeroDivisionError]; an overflow of [exp(-r T)] gives the range error of
    [math.exp]; otherwise both prices are returned. *)
Theorem price_errors_binary64 (S K T r sigma : float) :
  (0 <? T) = true ->
  let bs := B.mk S K T r sigma in
  let pow_overflows :=
    (is_infinity (libm_pow sigma 2) && is_finite sigma)%bool in
  let exp_overflows :=
    (is_infinity (libm_exp (- r * T)) && is_finite (- r * T))%bool in
  (forall e : exn, call_of bs = Raise e <-> put_of bs = Raise e) /\
  ((K =? 0) = true -> call_of bs = Raise ZeroDivisionError) /\
  ((K =? 0) = false -> (S / K <=? 0) = true ->
   call_of bs = Raise math_domain_error) /\
  ((K =? 0) = false -> (S / K <=? 0) = false -> pow_overflows = true ->
   call_of bs = Raise B.pow_range_error) /\
  ((K =? 0) = false -> (S / K <=? 0) = false -> pow_overflows = false ->
   (sigma * sqrt T =? 0) = true ->
   call_of bs = Raise ZeroDivisionError) /\
  ((K =? 0) = false -> (S / K <=? 0) = false -> pow_overflows = false ->
   (sigma * sqrt T =? 0) = false -> exp_overflows = true ->
   call_of bs = Raise B.math_range_error) /\
  ((K =? 0) = false -> (S / K <=? 0) = false -> pow_overflows = false ->
   (sigma * sqrt T =? 0) = false -> exp_overflows = false ->
   exists c p : float, call_of bs = Ok c /\ put_of bs = Ok p).
Proof.
  intros HT bs pow_overflows exp_overflows.
  subst bs pow_overflows exp_overflows.
  rewrite (call_unfold S K T r sigma HT), (put_unfold S K T r sigma HT),
    (d1_unfold S K T r sigma HT).
  unfold B.float_div, B.math_log, B.float_pow, B.math_exp.
  split.
  - intros e.
    repeat match goal with
           | |- context [if ?b then _ else _] =>
               destruct b; cbn [bind]; try tauto
           end.
    split; intros H; discriminate H.
  - repeat split; intros;
      repeat (match goal with
              | H : _ = _ |- _ => rewrite H; clear H
              end; cbn [bind]);
      try reflexivity.
    eexists; eexists; split; reflexivity.
Qed.

(** X13.  [get_d1_d2] returns the pair from which both prices are built.
    For [T <= 0] it is (0.0, 0.0).  For [T > 0], if it returns (d1, d2) then
    d2 is d1 - sigma * sqrt(T) in machine arithmetic, and each price is its
    formula at (d1, d2) once [exp(-r T)] is computed: a value if that does
    not overflow, the range error of [math.exp] for both prices if it does.
    If [get_d1_d2] raises, both prices raise the same exception. *)
Theorem get_d1_d2_feeds_prices (S K T r sigma : float) :
  let bs := B.mk S K T r sigma in
  ((T <=? 0) = true -> B.get_d1_d2 libm_log libm_pow bs = Ok (0, 0)) /\
  ((0 <? T) = true -> forall d1 d2 : float,
     B.get_d1_d2 libm_log libm_pow bs = Ok (d1, d2) ->
     d2 = d1 - sigma * sqrt T /\
     d1_of bs = Ok d1 /\ d2_of bs = Ok d2 /\
     call_of bs
     = (e <- B.math_exp libm_exp (- r * T) ;;
        Ok (S * norm_cdf d1 - K * e * norm_cdf d2)) /\
     put_of bs
     = (e <- B.math_exp libm_exp (- r * T) ;;
        Ok (K * e * norm_cdf (- d2) - S * norm_cdf (- d1))) /\
     (is_infinity (libm_exp (- r * T)) = false ->
      call_of bs
      = Ok (S * norm_cdf d1 - K * libm_exp (- r * T) * norm_cdf d2) /\
      put_of bs
      = Ok (K * libm_exp (- r * T) * norm_cdf (- d2) - S * norm_cdf (- d1))) /\
     ((is_infinity (libm_exp (- r * T)) && is_finite (- r * T))%bool = true ->
      call_of bs = Raise B.math_range_error /\
      put_of bs = Raise B.math_range_error)) /\
  ((0 <? T) = true -> forall e : exn,
     B.get_d1_d2 libm_log libm_pow bs = Raise e ->
     call_of bs = Raise e /\ put_of bs = Raise e).
Proof.
  intros bs. split; [| split].
  - intros HT. unfold B.get_d1_d2, B._d1, B._d2. subst bs. cbn [B.T].
    rewrite HT. reflexivity.
  - intros HT d1 d2 H. subst bs. unfold B.get_d1_d2 in H.
    rewrite (call_unfold S K T r sigma HT), (put_unfold S K T r sigma HT).
    rewrite (d2_unfold S K T r sigma HT) in *.
    destruct (d1_of (B.mk S K T r sigma)) as [x |]; [| discriminate H].
    cbn [bind] in *. inversion H; subst.
    split; [reflexivity |]. split; [reflexivity |]. split; [reflexivity |].
    split; [reflexivity |]. split; [reflexivity |]. split.
    + intros Hexp. rewrite (exp_returns _ Hexp). split; reflexivity.
    + intros Hexp. unfold B.math_exp. rewrite Hexp. split; reflexivity.
  - intros HT e H. subst bs. unfold B.get_d1_d2 in H.
    rewrite (call_unfold S K T r sigma HT), (put_unfold S K T r sigma HT).
    rewrite (d2_unfold S K T r sigma HT) in H.
    destruct (d1_of (B.mk S K T r sigma)) as [x |]; cbn [bind] in *.
    + discriminate H.
    + inversion H; subst. split; reflexivity.
Qed.

End Libm.



Lemma price_dispatch_binary64_witness :
  (lower "straddle" <> "call"%string /\ lower "straddle" <> "put"%string /\
   lower "Call" = "call"%string) /\
  B.price B.stub_log B.stub_exp B.stub_pow B.stub_cdf
    (B.mk 100 105 0.25 0.05 0.2) "straddle"
  = Raise BlackScholesModel.invalid_option_type /\
  exists c : float,
    B.price B.stub_log B.stub_exp B.stub_pow B.stub_cdf
      (B.mk 100 105 0.25 0.05 0.2) "Call" = Ok c.
Proof.
  assert (H : lower "straddle" <> "call"%string /\ lower "straddle" <> "put"%string)
    by (split; discriminate).
  assert (Hcall : lower "Call" = "call"%string) by reflexivity.
  split; [split; [exact (proj1 H) | split; [exact (proj2 H) | exact Hcall]] |].
  split.
  - apply (proj1 (price_dispatch_binary64 B.stub_log B.stub_exp B.stub_pow
                    B.stub_cdf (B.mk 100 105 0.25 0.05 0.2) "straddle")).
    exact H.
  - destruct (price_dispatch_binary64 B.stub_log B.stub_exp B.stub_pow
                B.stub_cdf (B.mk 100 105 0.25 0.05 0.2) "Call")
      as (_ & Hdisp & _ & _ & _ & Hval).
    destruct Hval as (c & p & Hc & _); try reflexivity.
    exists c. rewrite (Hdisp Hcall). exact Hc.
Defined.

(** C6, counterexample.  The inputs [S = 1e-200], [K = 1e200], [T = 1],
    [r = 0], [sigma = 0.2] lie in the valid numeric ranges and the side is a
    call, yet [price] raises: the domain error of [math.log], which is not
    the invalid-option-type error. *)
Lemma valid_side_and_ranges_can_raise :
  (fst (B.validate_option_inputs 1e-200 1e200 1 0 0.2) = true /\
   lower "call" = "call"%string /\
   math_domain_error <> BlackScholesModel.invalid_option_type) /\
  (forall (libm_log libm_exp : float -> float)
          (libm_pow : float -> float -> float) (norm_cdf : float -> float),
     B.price libm_log libm_exp libm_pow norm_cdf
       (B.mk 1e-200 1e200 1 0 0.2) "call"
     = Raise math_domain_error).
Proof.
  split; [repeat split; try reflexivity; discriminate |].
  intros libm_log libm_exp libm_pow norm_cdf. reflexivity.
Qed.

Lemma price_errors_binary64_witness :
  ((0 <? 1) = true /\ (1e200 =? 0) = false /\ (1e-200 / 1e200 <=? 0) = true) /\
  B.call_price B.stub_log B.stub_exp B.stub_pow B.stub_cdf
    (B.mk 1e-200 1e200 1 0 0.2) = Raise math_domain_error /\
  B.put_price B.stub_log B.stub_exp B.stub_pow B.stub_cdf
    (B.mk 1e-200 1e200 1 0 0.2) = Raise math_domain_error.
Proof.
  split; [repeat split; reflexivity |].
  destruct (price_errors_binary64 B.stub_log B.stub_exp B.stub_pow B.stub_cdf
              1e-200 1e200 1 0 0.2 eq_refl) as (Hsame & _ & Hlog & _).
  assert (Hc := Hlog eq_refl eq_refl).
  split; [exact Hc | exact (proj1 (Hsame _) Hc)].
Defined.

Lemma get_d1_d2_feeds_prices_witness :
  ((0 <? 0.25) = true /\
   is_infinity (B.stub_exp (- 0.05 * 0.25)) = false /\
   B.get_d1_d2 B.stub_log B.stub_pow (B.mk 100 105 0.25 0.05 0.2)
   = Ok (0.17500000000000002, 0.075000000000000011)) /\
  B.call_price B.stub_log B.stub_exp B.stub_pow B.stub_cdf
    (B.mk 100 105 0.25 0.05 0.2) = Ok (-2.5) /\
  B.put_price B.stub_log B.stub_exp B.stub_pow B.stub_cdf
    (B.mk 100 105 0.25 0.05 0.2) = Ok 2.5.
Proof.
  assert (Hpair : B.get_d1_d2 B.stub_log B.stub_pow (B.mk 100 105 0.25 0.05 0.2)
                  = Ok (0.17500000000000002, 0.075000000000000011)) by reflexivity.
  split; [repeat split; reflexivity |].
  destruct (get_d1_d2_feeds_prices B.stub_log B.stub_exp B.stub_pow B.stub_cdf
              100 105 0.25 0.05 0.2) as (_ & Hfeed & _).
  destruct (Hfeed eq_refl _ _ Hpair) as (_ & _ & _ & _ & _ & Hprices & _).
  destruct (Hprices eq_refl) as [Hc Hp].
  split; [exact Hc | exact Hp].
Defined.

End Binary64Facts.
